(** * Event popularity extraction: a shallow embedding of [main.py]

    The program queries three sources for a keyword (an event-listing site,
    Reddit, Google Trends), scores what it finds with
    [calculate_relevance_score], keeps the items scoring 90 or more and writes
    one JSON report.

    Conventions of the embedding.
    - A Python [str] is a [string]; the tables used by [str.lower],
      [str.isalnum] and [str.split] are the ASCII ones, so the embedding is
      exact on ASCII text (code points below 128).
    - A Python [int] is a [Z]; [None] is the [None] of [option].
    - A dict with a fixed set of keys is a record; a key that only some
      return statements set is a field of type [option].
    - What comes from outside (HTTP responses, parsed HTML, the Reddit client,
      the environment) is an argument of the function that reads it, and a
      call that may raise yields an [outcome]. *)

From Stdlib Require Import ZArith List Bool Ascii String Lia.
From Stdlib Require Import Numbers.DecimalString.
Import ListNotations.

Open Scope string_scope.
Open Scope Z_scope.

(** ** Results of calls that may raise *)

Inductive outcome (A : Type) : Type :=
| Returned (a : A)
| Raised (msg : string).

Arguments Returned {A} a.
Arguments Raised {A} msg.

(** ** Python string operations *)

Module PyStr.

Definition in_range (lo hi : nat) (c : ascii) : bool :=
  (Nat.leb lo (nat_of_ascii c) && Nat.leb (nat_of_ascii c) hi)%bool.

Definition isupper (c : ascii) : bool := in_range 65 90 c.
Definition islower (c : ascii) : bool := in_range 97 122 c.
Definition isdigit (c : ascii) : bool := in_range 48 57 c.

(** [c.isalnum()] *)
Definition isalnum (c : ascii) : bool :=
  (isupper c || islower c || isdigit c)%bool.

(** The characters [str.split()] and [str.rstrip()] treat as whitespace:
    tab, line feed, vertical tab, form feed, carriage return, the four
    separators 0x1c-0x1f and the space. *)
Definition isspace (c : ascii) : bool :=
  (in_range 9 13 c || in_range 28 31 c || Nat.eqb (nat_of_ascii c) 32)%bool.

Definition lower_char (c : ascii) : ascii :=
  if isupper c then ascii_of_nat (nat_of_ascii c + 32) else c.

Fixpoint map_chars (f : ascii -> ascii) (s : string) : string :=
  match s with
  | EmptyString => EmptyString
  | String c t => String (f c) (map_chars f t)
  end.

Fixpoint filter_chars (p : ascii -> bool) (s : string) : string :=
  match s with
  | EmptyString => EmptyString
  | String c t => if p c then String c (filter_chars p t) else filter_chars p t
  end.

(** [s.lower()] *)
Definition lower (s : string) : string := map_chars lower_char s.

(** [needle in hay] *)
Fixpoint contains (needle hay : string) : bool :=
  if prefix needle hay then true
  else match hay with
       | EmptyString => false
       | String _ t => contains needle t
       end.

(** [s.startswith(p)] *)
Definition startswith (s p : string) : bool := prefix p s.

Definition is_empty (s : string) : bool :=
  match s with EmptyString => true | _ => false end.

(** Truth value of a string: the empty string is false. *)
Definition truthy (s : string) : bool := negb (is_empty s).

(** [s.split()]: the maximal runs of non-whitespace characters. [cur] is
    the run being read. *)
Fixpoint split_from (cur s : string) : list string :=
  match s with
  | EmptyString => if is_empty cur then [] else [cur]
  | String c t =>
      if isspace c
      then (if is_empty cur then split_from "" t else cur :: split_from "" t)
      else split_from (cur ++ String c "") t
  end.

Definition split (s : string) : list string := split_from "" s.

(** [s.split(sep)] for a one-character separator. *)
Fixpoint split_on_from (sep : ascii) (cur s : string) : list string :=
  match s with
  | EmptyString => [cur]
  | String c t =>
      if Ascii.eqb c sep
      then cur :: split_on_from sep "" t
      else split_on_from sep (cur ++ String c "") t
  end.

Definition split_on (sep : ascii) (s : string) : list string :=
  split_on_from sep "" s.

(** [s.rstrip()] *)
Fixpoint rstrip (s : string) : string :=
  match s with
  | EmptyString => EmptyString
  | String c t =>
      let t' := rstrip t in
      if (isspace c && is_empty t')%bool then EmptyString else String c t'
  end.

(** [s.replace(a, b)] for one-character [a] and [b]. *)
Definition replace_char (a b : ascii) (s : string) : string :=
  map_chars (fun c => if Ascii.eqb c a then b else c) s.

(** [s[:n]] *)
Definition take (n : nat) (s : string) : string := substring 0 n s.

(** [str(n)] for a natural number. *)
Definition of_nat (n : nat) : string :=
  NilZero.string_of_uint (Nat.to_uint n).

End PyStr.

(** ** The relevance scorer *)

Definition event_terms : list string :=
  ["festival"; "event"; "celebration"; "party"; "concert"; "show"; "tour";
   "live"; "performance"].

Definition relevance_threshold : Z := 90.

(** The three additions of [calculate_relevance_score], each as the amount it
    adds to [score]. *)

(** [if keyword_lower in title_lower: score += 100] *)
Definition exact_match_points (title_lower keyword_lower : string) : Z :=
  if PyStr.contains keyword_lower title_lower then 100 else 0.

(** [for word in keyword_lower.split(): if word in title_lower: score += 35] *)
Definition add_word_points (title_lower : string) (score : Z) (word : string) : Z :=
  if PyStr.contains word title_lower then score + 35 else score.

Definition word_match_points (title_lower keyword_lower : string) : Z :=
  fold_left (add_word_points title_lower) (PyStr.split keyword_lower) 0.

(** [if any(term in title_lower for term in event_terms): score += 20] *)
Definition event_bonus_points (title_lower : string) : Z :=
  if existsb (fun term => PyStr.contains term title_lower) event_terms
  then 20 else 0.

(** The value of [score] when the [return] statement is reached. *)
Definition score_before_clamp (title keyword : string) : Z :=
  let title_lower := PyStr.lower title in
  let keyword_lower := PyStr.lower keyword in
  let score := 0 in
  let score :=
    if PyStr.contains keyword_lower title_lower then score + 100 else score in
  let score :=
    fold_left (add_word_points title_lower) (PyStr.split keyword_lower) score in
  let score :=
    if existsb (fun term => PyStr.contains term title_lower) event_terms
    then score + 20 else score in
  score.

(** [max(0, min(score, 100))] *)
Definition clamp (score : Z) : Z := Z.max 0 (Z.min score 100).

Definition calculate_relevance_score (title keyword : string) : Z :=
  clamp (score_before_clamp title keyword).

(** [e['relevance_score'] >= 90] *)
Definition passes_threshold (score : Z) : bool := relevance_threshold <=? score.

(** ** Dates and times *)

Module DateTime.

(** A naive [datetime]. *)
Record datetime : Type := mk_datetime {
  year : Z; month : Z; day : Z; hour : Z; minute : Z; second : Z
}.

Definition is_leap (y : Z) : bool :=
  (((y mod 4 =? 0) && negb (y mod 100 =? 0)) || (y mod 400 =? 0))%bool.

Definition days_in_month (y m : Z) : Z :=
  if m =? 2 then (if is_leap y then 29 else 28)
  else if ((m =? 4) || (m =? 6) || (m =? 9) || (m =? 11))%bool then 30
  else 31.

Definition bind {A B : Type} (o : option A) (k : A -> option B) : option B :=
  match o with
  | Some a => k a
  | None => None
  end.

Notation "x <- e ;; k" := (bind e (fun x => k))
  (at level 61, e at next level, right associativity).
Notation "' p <- e ;; k" := (bind e (fun x => let p := x in k))
  (at level 61, p pattern, e at next level, right associativity).

Definition digit (c : ascii) : option Z :=
  if PyStr.isdigit c then Some (Z.of_nat (nat_of_ascii c) - 48) else None.

(** Read exactly [n] decimal digits. *)
Fixpoint digits (n : nat) (acc : Z) (s : string) : option (Z * string) :=
  match n with
  | O => Some (acc, s)
  | S n' =>
      match s with
      | EmptyString => None
      | String c t => d <- digit c ;; digits n' (10 * acc + d) t
      end
  end.

Definition expect (c : ascii) (s : string) : option string :=
  match s with
  | EmptyString => None
  | String c' t => if Ascii.eqb c c' then Some t else None
  end.

Definition guard (b : bool) : option unit := if b then Some tt else None.

(** The date part [YYYY-MM-DD]; what follows it is returned. *)
Definition parse_date (s : string) : option (Z * Z * Z * string) :=
  '(y, s) <- digits 4 0 s ;;
  s <- expect "-" s ;;
  '(m, s) <- digits 2 0 s ;;
  s <- expect "-" s ;;
  '(d, s) <- digits 2 0 s ;;
  _ <- guard ((1 <=? y) && (1 <=? m) && (m <=? 12)
              && (1 <=? d) && (d <=? days_in_month y m)) ;;
  Some (y, m, d, s).

(** The time part [HH], [HH:MM] or [HH:MM:SS], up to the end of the string. *)
Definition parse_time (s : string) : option (Z * Z * Z) :=
  '(h, s) <- digits 2 0 s ;;
  _ <- guard (h <=? 23) ;;
  match s with
  | EmptyString => Some (h, 0, 0)
  | _ =>
      s <- expect ":" s ;;
      '(mi, s) <- digits 2 0 s ;;
      _ <- guard (mi <=? 59) ;;
      match s with
      | EmptyString => Some (h, mi, 0)
      | _ =>
          s <- expect ":" s ;;
          '(se, s) <- digits 2 0 s ;;
          _ <- guard (se <=? 59) ;;
          match s with
          | EmptyString => Some (h, mi, se)
          | _ => None
          end
      end
  end.

(** [datetime.fromisoformat(s)] on the strings of two forms: a valid date
    [YYYY-MM-DD], or such a date, one separator character and a time [HH],
    [HH:MM] or [HH:MM:SS]. On a string of these forms the result is
    [Some dt], the datetime CPython returns. [None] only says that the string
    is of neither form. It is not the [ValueError] of CPython: CPython also
    reads a fraction of a second and a UTC offset after the time, and from
    version 3.11 the basic format without hyphens and week dates, and it
    raises on the rest. What the program does on such a string is not
    embedded, and every property below that depends on the date argument is
    stated for an argument that this function reads. *)
Definition fromisoformat (s : string) : option datetime :=
  '(y, m, d, rest) <- parse_date s ;;
  match rest with
  | EmptyString => Some (mk_datetime y m d 0 0 0)
  | String _ t =>
      '(h, mi, se) <- parse_time t ;;
      Some (mk_datetime y m d h mi se)
  end.

(** [dt + timedelta(days=1)]; [None] is the [OverflowError] past year 9999. *)
Definition add_one_day (dt : datetime) : option datetime :=
  let (y, m, d, h, mi, se) := dt in
  if d <? days_in_month y m then Some (mk_datetime y m (d + 1) h mi se)
  else if m <? 12 then Some (mk_datetime y (m + 1) 1 h mi se)
  else if y <? 9999 then Some (mk_datetime (y + 1) 1 1 h mi se)
  else None.

Definition digit_char (d : Z) : ascii := ascii_of_nat (48 + Z.to_nat d).

Definition pad2 (n : Z) : string :=
  String (digit_char (n / 10 mod 10)) (String (digit_char (n mod 10)) "").

Definition pad4 (n : Z) : string := pad2 (n / 100) ++ pad2 (n mod 100).

Definition pad1 (n : Z) : string := String (digit_char (n mod 10)) "".

(** The [%Y] of [strftime] as CPython on the C library of Linux renders it:
    the year in decimal with no leading zero, so "999" for the year 999.
    From the year 1000 on it is the four digits that every platform gives. *)
Definition year_digits (y : Z) : string :=
  if y <? 10 then pad1 y
  else if y <? 100 then pad2 y
  else if y <? 1000 then pad1 (y / 100) ++ pad2 (y mod 100)
  else pad4 y.

(** [dt.strftime("%Y%m%d_%H%M%S")] *)
Definition strftime_compact (dt : datetime) : string :=
  year_digits (year dt) ++ pad2 (month dt) ++ pad2 (day dt) ++ "_"
  ++ pad2 (hour dt) ++ pad2 (minute dt) ++ pad2 (second dt).

(** [dt.strftime("%Y-%m-%d")] *)
Definition strftime_date (dt : datetime) : string :=
  year_digits (year dt) ++ "-" ++ pad2 (month dt) ++ "-" ++ pad2 (day dt).

(** [dt.isoformat()] of a naive datetime with no microseconds; the year
    always has four digits here. *)
Definition isoformat (dt : datetime) : string :=
  pad4 (year dt) ++ "-" ++ pad2 (month dt) ++ "-" ++ pad2 (day dt)
  ++ "T" ++ pad2 (hour dt) ++ ":" ++ pad2 (minute dt)
  ++ ":" ++ pad2 (second dt).

End DateTime.

Import DateTime.

(** The [--date] argument as [main] parses it: the pair [(start, end)].
    [None]: a field is of neither form that [fromisoformat] reads here, and
    the run is not embedded; or the day after the start is past the year
    9999, where [start + timedelta(days=1)] raises [OverflowError] and the
    run ends before any source is queried. *)
Definition parse_date_input (date : string) : option (datetime * datetime) :=
  if PyStr.contains "," date then
    start <- fromisoformat (nth 0 (PyStr.split_on "," date) "") ;;
    end_ <- fromisoformat (nth 1 (PyStr.split_on "," date) "") ;;
    Some (start, end_)
  else
    start <- fromisoformat date ;;
    end_ <- add_one_day start ;;
    Some (start, end_).

(** ** Output file name *)

Definition keeps_in_filename (c : ascii) : bool :=
  (PyStr.isalnum c || Ascii.eqb c " " || Ascii.eqb c "-" || Ascii.eqb c "_")%bool.

Definition create_output_filename (keyword : string) (current_time : datetime) : string :=
  let search_name := PyStr.rstrip (PyStr.filter_chars keeps_in_filename keyword) in
  let search_name := PyStr.lower (PyStr.replace_char " " "_" search_name) in
  let date_time := strftime_compact current_time in
  search_name ++ "_" ++ date_time ++ "_search_output.json".

(** ** Event-listing adapter *)

(** One entry of the [events] list. *)
Record event : Type := mk_event {
  ev_title : string;
  ev_date_text : string;
  ev_location : string;
  ev_link : string;
  ev_relevance_score : Z;
  ev_source : string
}.

(** The dict an event-listing fetch ends in. The keys [source],
    [selector_used], [total_events_found], [relevance_threshold] and [error]
    are set by some return statements only. *)
Record eventbrite_result : Type := mk_eventbrite_result {
  eb_count : Z;
  eb_events : list event;
  eb_source : option string;
  eb_selector_used : option string;
  eb_total_events_found : option Z;
  eb_relevance_threshold : option Z;
  eb_error : option string
}.

(** What the HTML parser finds in one event card: the text of its heading
    or title element, its whole text, the text of its date and of its
    location element, and the [href] of its first link. *)
Record card_fields : Type := mk_card {
  heading_text : option string;
  card_text : string;
  date_elem_text : option string;
  location_elem_text : option string;
  first_href : option string
}.

(** Reading a card may raise; the loop then skips it. *)
Definition card : Type := outcome card_fields.

(** An [<a>] element: its [href] attribute, when it has one, and its text. *)
Record anchor : Type := mk_anchor {
  a_href : option string;
  a_text : string
}.

(** A parsed page: the elements each CSS selector matches, and its links. *)
Record page : Type := mk_page {
  select : string -> list card;
  anchors : list anchor
}.

(** [requests.get(url)]: it raises, or answers with a status code and a page. *)
Definition http : Type := string -> outcome (Z * page).

Definition selectors : list string :=
  ["[data-testid='search-result-event-card']";
   ".search-event-card-wrapper";
   ".eds-event-card-content__primary-content";
   ".search-main-content__events-list-item";
   "[data-spec='search-result']";
   ".search-results-panel-content article";
   ".event-card";
   "[class*='event-card']";
   ".discover-search-desktop-card";
   ".eds-card-content"].

Definition eventbrite_urls (keyword : string) : list string :=
  let q := PyStr.replace_char " " "+" keyword in
  ["https://www.eventbrite.co.uk/d/united-kingdom/" ++ q ++ "/";
   "https://www.eventbrite.co.uk/search?q=" ++ q ++ "&location=United+Kingdom"].

Definition text_or_empty (o : option string) : string :=
  match o with Some s => s | None => "" end.

(** The body of the [try] of the card loop. *)
Definition event_of_card (keyword : string) (c : card_fields) : event :=
  let title :=
    match heading_text c with
    | Some t => t
    | None => PyStr.take 100 (card_text c)
    end in
  let date_text := text_or_empty (date_elem_text c) in
  let location := text_or_empty (location_elem_text c) in
  let link := text_or_empty (first_href c) in
  let link :=
    if (PyStr.truthy link && negb (PyStr.startswith link "http"))%bool
    then "https://www.eventbrite.com" ++ link else link in
  let relevance_score := calculate_relevance_score title keyword in
  {| ev_title := PyStr.take 200 title;
     ev_date_text := PyStr.take 100 date_text;
     ev_location := PyStr.take 100 location;
     ev_link := link;
     ev_relevance_score := relevance_score;
     ev_source := "eventbrite_scrape" |}.

(** The card loop: a card that raises is skipped. *)
Fixpoint events_of_cards (keyword : string) (cards : list card) : list event :=
  match cards with
  | [] => []
  | Returned c :: rest => event_of_card keyword c :: events_of_cards keyword rest
  | Raised _ :: rest => events_of_cards keyword rest
  end.

(** [[e for e in events if e['relevance_score'] >= 90]] *)
Definition high_relevance (events : list event) : list event :=
  filter (fun e => passes_threshold (ev_relevance_score e)) events.

Definition len {A : Type} (l : list A) : Z := Z.of_nat (List.length l).

Definition result_of_cards (selector : string) (events : list event) : eventbrite_result :=
  let high_relevance_events := high_relevance events in
  {| eb_count := len high_relevance_events;
     eb_events := high_relevance_events;
     eb_source := Some "eventbrite_scrape";
     eb_selector_used := Some selector;
     eb_total_events_found := Some (len events);
     eb_relevance_threshold := Some 90;
     eb_error := None |}.

(** The selector loop: the first selector with a match decides. *)
Fixpoint try_selectors (keyword : string) (pg : page) (sels : list string)
  : option eventbrite_result :=
  match sels with
  | [] => None
  | selector :: rest =>
      match select pg selector with
      | [] => try_selectors keyword pg rest
      | cards => Some (result_of_cards selector (events_of_cards keyword cards))
      end
  end.

(** [soup.find_all("a", href=lambda x: x and "/e/" in x)] *)
Definition is_event_link (a : anchor) : bool :=
  match a_href a with
  | Some x => (PyStr.truthy x && PyStr.contains "/e/" x)%bool
  | None => false
  end.

(** The body of the [try] of the link loop, for the link of index [k]. *)
Definition event_of_link (keyword : string) (k : nat) (a : anchor) : event :=
  let href := text_or_empty (a_href a) in
  let href :=
    if negb (PyStr.startswith href "http")
    then "https://www.eventbrite.com" ++ href else href in
  let title :=
    if PyStr.truthy (a_text a) then a_text a
    else "Event " ++ PyStr.of_nat (k + 1) in
  let relevance_score := calculate_relevance_score title keyword in
  {| ev_title := PyStr.take 200 title;
     ev_date_text := "";
     ev_location := "";
     ev_link := href;
     ev_relevance_score := relevance_score;
     ev_source := "eventbrite_links" |}.

Fixpoint events_of_links (keyword : string) (k : nat) (links : list anchor) : list event :=
  match links with
  | [] => []
  | a :: rest => event_of_link keyword k a :: events_of_links keyword (S k) rest
  end.

Definition result_of_links (events : list event) : eventbrite_result :=
  let high_relevance_events := high_relevance events in
  {| eb_count := len high_relevance_events;
     eb_events := high_relevance_events;
     eb_source := Some "eventbrite_links";
     eb_selector_used := None;
     eb_total_events_found := Some (len events);
     eb_relevance_threshold := Some 90;
     eb_error := None |}.

(** [r.raise_for_status()] raises on the 4xx and 5xx codes. *)
Definition is_error_status (status : Z) : bool :=
  ((400 <=? status) && (status <? 600))%bool.

(** The URL loop. A request that raises, a 404, an error status, and a page
    with neither cards nor event links all move on to the next URL. *)
Fixpoint try_urls (keyword : string) (get : http) (urls : list string)
  : option eventbrite_result :=
  match urls with
  | [] => None
  | url :: rest =>
      match get url with
      | Raised _ => try_urls keyword get rest
      | Returned (status_code, soup) =>
          if status_code =? 404 then try_urls keyword get rest
          else if is_error_status status_code then try_urls keyword get rest
          else
            match try_selectors keyword soup selectors with
            | Some r => Some r
            | None =>
                match filter is_event_link (anchors soup) with
                | [] => try_urls keyword get rest
                | event_links =>
                    Some (result_of_links (events_of_links keyword 0 event_links))
                end
            end
      end
  end.

Definition no_events_found : eventbrite_result :=
  {| eb_count := 0;
     eb_events := [];
     eb_source := Some "eventbrite_scrape";
     eb_selector_used := None;
     eb_total_events_found := None;
     eb_relevance_threshold := None;
     eb_error := Some "No events found" |}.

Definition fetch_eventbrite_scrape (get : http) (keyword : string) : eventbrite_result :=
  match try_urls keyword get (eventbrite_urls keyword) with
  | Some r => r
  | None => no_events_found
  end.

(** The dates and the token are not used by the scrape. *)
Definition fetch_eventbrite_count (get : http) (keyword : string)
  (start_date end_date : option datetime) (token : option string) : eventbrite_result :=
  fetch_eventbrite_scrape get keyword.

(** ** Discussion adapter *)

(** A submission as the Reddit client delivers it. [sub_created_utc] is the
    creation time in epoch seconds; [sub_author] is [None] for a deleted
    account. *)
Record submission : Type := mk_submission {
  sub_title : string;
  sub_subreddit : string;
  sub_author : option string;
  sub_score : Z;
  sub_num_comments : Z;
  sub_created_utc : Z;
  sub_permalink : string
}.

(** One entry of [detailed_posts]. *)
Record post : Type := mk_post {
  post_title : string;
  post_subreddit : string;
  post_author : string;
  post_score : Z;
  post_num_comments : Z;
  post_created_utc : Z;
  post_created_date : string;
  post_url : string;
  post_relevance_score : Z;
  post_in_date_range : bool
}.

(** The dict a discussion fetch ends in, and the dict [main] puts in its
    place when the fetch raises. Only [count] and [posts] are set by every
    one of them. *)
Record reddit_result : Type := mk_reddit_result {
  rd_count : Z;
  rd_posts : list post;
  rd_in_date_range : option Z;
  rd_source : option string;
  rd_total_posts_found : option Z;
  rd_posts_in_date_range : option Z;
  rd_relevance_threshold : option Z;
  rd_error : option string
}.

(** What the adapter reads from its surroundings: the three environment
    variables, whether [praw] could be imported, the search of the Reddit
    client (subreddits, keyword), which returns the submissions or raises
    (as does a client that cannot connect), and
    [datetime.fromtimestamp(t).strftime(...)], the local-time rendering of
    an epoch second, which is [None] when [fromtimestamp] raises. The two
    bounds the adapter is called with are seconds of datetimes that [main]
    parsed, which render; the creation time of a submission need not. *)
Record reddit_world : Type := mk_reddit_world {
  REDDIT_CLIENT_ID : option string;
  REDDIT_CLIENT_SECRET : option string;
  REDDIT_USER_AGENT : option string;
  praw : bool;
  search : string -> string -> outcome (list submission);
  format_timestamp : Z -> option string
}.

(** Truth value of [os.getenv(...)]: unset and empty are both false. *)
Definition env_truthy (v : option string) : bool :=
  match v with
  | Some s => PyStr.truthy s
  | None => false
  end.

Definition uk_subreddits : string :=
  "unitedkingdom+uk+london+manchester+birmingham+glasgow+edinburgh+liverpool+bristol+leeds+casualuk+britishproblems+askuk".

(** [start_ts <= created_utc <= end_ts] *)
Definition in_date_range (start_ts end_ts created_utc : Z) : bool :=
  ((start_ts <=? created_utc) && (created_utc <=? end_ts))%bool.

(** Whether the creation time of each of [subs] renders. *)
Definition renders_all (w : reddit_world) (subs : list submission) : bool :=
  forallb
    (fun sub =>
       match format_timestamp w (sub_created_utc sub) with
       | Some _ => true
       | None => false
       end)
    subs.

(** The log loop over [submissions[:20]], which renders each creation time:
    [None] when one of them raises. *)
Definition log_submissions (w : reddit_world) (submissions : list submission)
  : option unit :=
  guard (renders_all w (firstn 20 submissions)).

(** One turn of the loop that builds [detailed_posts]: [None] when the
    creation time does not render. *)
Definition detailed_post (w : reddit_world) (keyword : string) (start_ts end_ts : Z)
  (sub : submission) : option post :=
  let relevance_score := calculate_relevance_score (sub_title sub) keyword in
  created_date <- format_timestamp w (sub_created_utc sub) ;;
  Some
    {| post_title := sub_title sub;
       post_subreddit := sub_subreddit sub;
       post_author := match sub_author sub with
                      | Some a => a
                      | None => "[deleted]"
                      end;
       post_score := sub_score sub;
       post_num_comments := sub_num_comments sub;
       post_created_utc := sub_created_utc sub;
       post_created_date := created_date;
       post_url := "https://reddit.com" ++ sub_permalink sub;
       post_relevance_score := relevance_score;
       post_in_date_range := in_date_range start_ts end_ts (sub_created_utc sub) |}.

(** The loop over [posts_to_return]. *)
Fixpoint detailed_posts_of (w : reddit_world) (keyword : string)
  (start_ts end_ts : Z) (posts_to_return : list submission) : option (list post) :=
  match posts_to_return with
  | [] => Some []
  | sub :: rest =>
      p <- detailed_post w keyword start_ts end_ts sub ;;
      ps <- detailed_posts_of w keyword start_ts end_ts rest ;;
      Some (p :: ps)
  end.

(** The final [return] of the adapter, also reached after a caught error. *)
Definition no_api : reddit_result :=
  {| rd_count := 0;
     rd_posts := [];
     rd_in_date_range := Some 0;
     rd_source := Some "no_api";
     rd_total_posts_found := None;
     rd_posts_in_date_range := None;
     rd_relevance_threshold := None;
     rd_error := None |}.

(** The body of the [try], from the list of submissions on. [None]: a
    [datetime.fromtimestamp] of the body raised, in the log loop or in the
    loop over [posts_to_return], and the [except] of the adapter catches the
    exception. The other steps of the body read fields of the submissions
    that the search has delivered. *)
Definition process_submissions (w : reddit_world) (keyword : string)
  (start_ts end_ts : Z) (submissions : list submission) : option reddit_result :=
  _ <- log_submissions w submissions ;;
  let in_range_submissions :=
    filter (fun s => in_date_range start_ts end_ts (sub_created_utc s)) submissions in
  let filtered_count := len in_range_submissions in
  let posts_to_return :=
    match in_range_submissions with
    | [] => firstn 10 submissions
    | _ => in_range_submissions
    end in
  detailed_posts <- detailed_posts_of w keyword start_ts end_ts posts_to_return ;;
  if filtered_count =? 0 then
    Some
      {| rd_count := 0;
         rd_posts := [];
         rd_in_date_range := Some 0;
         rd_source := Some "reddit_api";
         rd_total_posts_found := Some (len detailed_posts);
         rd_posts_in_date_range := None;
         rd_relevance_threshold := Some 90;
         rd_error := None |}
  else
    let posts_in_range := filter post_in_date_range detailed_posts in
    let high_relevance_posts_in_range :=
      filter (fun p => passes_threshold (post_relevance_score p)) posts_in_range in
    Some
      {| rd_count := len high_relevance_posts_in_range;
         rd_posts := high_relevance_posts_in_range;
         rd_in_date_range := Some (len high_relevance_posts_in_range);
         rd_source := Some "reddit_api";
         rd_total_posts_found := Some (len detailed_posts);
         rd_posts_in_date_range := Some (len posts_in_range);
         rd_relevance_threshold := Some 90;
         rd_error := None |}.

(** The adapter. Its [except] only logs: after an exception of the search
    or of the body of the [try], as without credentials or [praw], it ends
    in its final [return]. *)
Definition fetch_reddit_mentions (w : reddit_world) (keyword : string)
  (start_ts end_ts : Z) : reddit_result :=
  if (env_truthy (REDDIT_CLIENT_ID w) && env_truthy (REDDIT_CLIENT_SECRET w)
      && praw w)%bool
  then
    match search w uk_subreddits keyword with
    | Returned submissions =>
        match process_submissions w keyword start_ts end_ts submissions with
        | Some result => result
        | None => no_api
        end
    | Raised _ => no_api
    end
  else no_api.

(** ** The run: three sources, one report *)

(** A value that [main] tests with [isinstance(_, dict)]. *)
Inductive dict_or_int (D : Type) : Type :=
| IsDict (d : D)
| IsInt (n : Z).

Arguments IsDict {D} d.
Arguments IsInt {D} n.

(** The dict of the trend adapter. *)
Record trend_result : Type := mk_trend_result {
  max_score : Z;
  avg_score : Z;
  min_score : Z;
  trend_direction : string;
  total_days : Z;
  timeframe : string;
  daily_data : list (string * Z)
}.

(** The three shapes of [gt_data] when it is a dict: the adapter's own dict,
    the dict built around a bare score
    ([max_score] and [avg_score] both the score, direction "stable"), and
    the dict of the [except] branch, [{"error": msg, "max_score": None}]. *)
Inductive trend_detail : Type :=
| TrendFull (t : trend_result)
| TrendSimple (score : Z)
| TrendError (msg : string).

(** [gt_data.get("max_score")] *)
Definition get_max_score (d : trend_detail) : option Z :=
  match d with
  | TrendFull t => Some (max_score t)
  | TrendSimple score => Some score
  | TrendError _ => None
  end.

(** The event-listing block of [main]: [(eb_count, eb_data)]. *)
Definition eventbrite_block (call : outcome (dict_or_int eventbrite_result))
  : option Z * eventbrite_result :=
  match call with
  | Returned (IsDict eb_data) => (Some (eb_count eb_data), eb_data)
  | Returned (IsInt eb_count) =>
      (Some eb_count,
       {| eb_count := eb_count; eb_events := [];
          eb_source := Some "eventbrite_scrape";
          eb_selector_used := None; eb_total_events_found := None;
          eb_relevance_threshold := None; eb_error := None |})
  | Raised e =>
      (None,
       {| eb_count := 0; eb_events := [];
          eb_source := None;
          eb_selector_used := None; eb_total_events_found := None;
          eb_relevance_threshold := None; eb_error := Some e |})
  end.

(** The discussion block of [main]: [(reddit_count, reddit_data)]. The log
    line of the dict branch reads [reddit_data['in_date_range']], which
    raises [KeyError] inside the [try] when the key is missing. *)
Definition reddit_error_data (e : string) : reddit_result :=
  {| rd_count := 0; rd_posts := [];
     rd_in_date_range := None; rd_source := None;
     rd_total_posts_found := None; rd_posts_in_date_range := None;
     rd_relevance_threshold := None; rd_error := Some e |}.

Definition reddit_block (call : outcome (dict_or_int reddit_result))
  : option Z * dict_or_int reddit_result :=
  match call with
  | Returned (IsDict reddit_data) =>
      match rd_in_date_range reddit_data with
      | Some _ => (Some (rd_count reddit_data), IsDict reddit_data)
      | None => (Some 0, IsDict (reddit_error_data "'in_date_range'"))
      end
  | Returned (IsInt reddit_count) => (Some reddit_count, IsInt reddit_count)
  | Raised e => (Some 0, IsDict (reddit_error_data e))
  end.

(** The trend block of [main]: [gt_data]. *)
Definition trends_block (call : outcome (option (dict_or_int trend_result)))
  : option trend_detail :=
  match call with
  | Returned (Some (IsDict gt_raw)) => Some (TrendFull gt_raw)
  | Returned (Some (IsInt gt_raw)) => Some (TrendSimple gt_raw)
  | Returned None => None
  | Raised e => Some (TrendError e)
  end.

Record summary : Type := mk_summary {
  eventbrite_events : option Z;
  reddit_mentions : option Z;
  google_trends_score : option Z
}.

Record detailed_data : Type := mk_detailed_data {
  dd_eventbrite : eventbrite_result;
  dd_reddit : dict_or_int reddit_result;
  dd_google_trends : option trend_detail
}.

(** [search_duration_seconds] reads the clock and is left out. *)
Record search_metadata : Type := mk_search_metadata {
  date_range : string;
  sources_attempted : list string;
  sources_successful : list string
}.

(** The report [out]; [collected_at] reads the clock and is left out. *)
Record report : Type := mk_report {
  rep_keyword : string;
  rep_summary : summary;
  rep_detailed_data : detailed_data;
  rep_date : string;
  rep_search_metadata : search_metadata
}.

Definition is_not_None {A : Type} (o : option A) : bool :=
  match o with Some _ => true | None => false end.

(** The three calls of a run, each with what it did. *)
Record calls : Type := mk_calls {
  eventbrite_call : outcome (dict_or_int eventbrite_result);
  reddit_call : outcome (dict_or_int reddit_result);
  trends_call : outcome (option (dict_or_int trend_result))
}.

(** The calls of a run in which the two adapters embedded above run to their
    [return]: [timestamp] is [int(dt.timestamp())], [trends] is what the
    trend fetch did. *)
Definition adapter_calls (get : http) (w : reddit_world) (timestamp : datetime -> Z)
  (keyword : string) (start end_ : datetime) (token : option string)
  (trends : outcome (option (dict_or_int trend_result))) : calls :=
  let start_ts := timestamp start in
  let end_ts := timestamp end_ in
  {| eventbrite_call :=
       Returned (IsDict (fetch_eventbrite_count get keyword (Some start) (Some end_) token));
     reddit_call :=
       Returned (IsDict (fetch_reddit_mentions w keyword start_ts end_ts));
     trends_call := trends |}.

(** [main] from the parsed dates on, as a function of what the three fetches
    did. *)
Definition build_report (keyword : string) (start end_ : datetime) (c : calls) : report :=
  let '(eb_count, eb_data) := eventbrite_block (eventbrite_call c) in
  let '(reddit_count, reddit_data) := reddit_block (reddit_call c) in
  let gt_data := trends_block (trends_call c) in
  {| rep_keyword := keyword;
     rep_summary :=
       {| eventbrite_events := eb_count;
          reddit_mentions := reddit_count;
          google_trends_score :=
            match gt_data with
            | Some d => get_max_score d
            | None => None
            end |};
     rep_detailed_data :=
       {| dd_eventbrite := eb_data;
          dd_reddit := reddit_data;
          dd_google_trends := gt_data |};
     rep_date := strftime_date start;
     rep_search_metadata :=
       {| date_range := strftime_date start ++ " to " ++ strftime_date end_;
          sources_attempted := ["eventbrite"; "reddit"; "google_trends"];
          sources_successful :=
            map fst
              (filter snd
                 [("eventbrite", is_not_None eb_count);
                  ("reddit", is_not_None reddit_count);
                  ("google_trends", is_not_None gt_data)]) |} |}.

(** Whether the discussion block of [main] runs without entering its
    [except] branch: the fetch returned a number, or a dict that has the key
    [in_date_range] its log line reads. *)
Definition reddit_block_completes (c : calls) : bool :=
  match reddit_call c with
  | Returned (IsDict reddit_data) => is_not_None (rd_in_date_range reddit_data)
  | Returned (IsInt _) => true
  | Raised _ => false
  end.

(** Whether the trend block of [main] runs without entering its [except]
    branch. *)
Definition trends_block_completes (c : calls) : bool :=
  match trends_call c with
  | Returned _ => true
  | Raised _ => false
  end.

(** [main]: [None] when [parse_date_input] gives no range. *)
Definition main (keyword date : string) (c : calls) : option report :=
  '(start, end_) <- parse_date_input date ;;
  Some (build_report keyword start end_ c).

(** ** Sample inputs *)

Definition sample_submission (title : string) (created_utc : Z) : submission :=
  {| sub_title := title;
     sub_subreddit := "london";
     sub_author := None;
     sub_score := 1;
     sub_num_comments := 0;
     sub_created_utc := created_utc;
     sub_permalink := "/r/london/comments/1" |}.

(** A configured client whose search does [found]. *)
Definition sample_world (found : outcome (list submission)) : reddit_world :=
  {| REDDIT_CLIENT_ID := Some "id";
     REDDIT_CLIENT_SECRET := Some "secret";
     REDDIT_USER_AGENT := None;
     praw := true;
     search := fun _ _ => found;
     format_timestamp := fun _ => Some "1970-01-01 00:00:00" |}.

(** The same client on a machine where no creation time renders. *)
Definition sample_world_unrendered (found : outcome (list submission)) : reddit_world :=
  {| REDDIT_CLIENT_ID := Some "id";
     REDDIT_CLIENT_SECRET := Some "secret";
     REDDIT_USER_AGENT := None;
     praw := true;
     search := fun _ _ => found;
     format_timestamp := fun _ => None |}.

(** Eleven submissions created at second 50. *)
Definition eleven_early_submissions : list submission :=
  repeat (sample_submission "Taylor Swift tour" 50) 11.

(** A run in which every request of the event-listing adapter raises, the
    Reddit search raises inside the discussion adapter, and the trend adapter
    returns [None]. *)
Definition sample_calls_all_failing : calls :=
  adapter_calls (fun _ => Raised "connection refused")
    (sample_world (Raised "boom")) (fun _ => 0)
    "taylor swift" (mk_datetime 2024 5 1 0 0 0) (mk_datetime 2024 5 2 0 0 0)
    None (Returned None).

(** ** Search-trend adapter *)

(** The frame [pytrends.interest_over_time()] returns, as far as the adapter
    reads it: one row per day with the day and the value of the keyword's
    column, and [int(df[keyword].mean())], which the library computes in
    floating point. *)
Record frame : Type := mk_frame {
  rows : list (datetime * Z);
  mean_truncated : Z
}.

(** What the trend adapter reads from its surroundings: whether [pytrends]
    could be imported, and the query (keyword, timeframe), which returns a
    frame or raises. *)
Record trends_world : Type := mk_trends_world {
  TrendReq : bool;
  interest_over_time : string -> string -> outcome frame
}.

(** [df[keyword].max()] and [df[keyword].min()] of a column with first value
    [x] and further values [xs]. *)
Definition column_max (x : Z) (xs : list Z) : Z := fold_left Z.max xs x.
Definition column_min (x : Z) (xs : list Z) : Z := fold_left Z.min xs x.

(** The classification of lines 418-423. *)
Definition direction_of (daily_data : list (string * Z)) : string :=
  if 2 <=? len daily_data then
    let first_score := snd (hd ("", 0) daily_data) in
    let last_score := snd (last daily_data ("", 0)) in
    let trend_direction :=
      if first_score <? last_score then "increasing" else "decreasing" in
    if last_score =? first_score then "stable" else trend_direction
  else "unknown".

Definition fetch_google_trends_score (w : trends_world) (keyword : string)
  (start_date end_date : datetime) : option trend_result :=
  if negb (TrendReq w) then None
  else
    let timeframe := strftime_date start_date ++ " " ++ strftime_date end_date in
    match interest_over_time w keyword timeframe with
    | Raised _ => None
    | Returned df =>
        match map snd (rows df) with
        | [] => None
        | x :: xs =>
            let daily_data :=
              map (fun row => (strftime_date (fst row), snd row)) (rows df) in
            Some {| max_score := column_max x xs;
                    avg_score := mean_truncated df;
                    min_score := column_min x xs;
                    trend_direction := direction_of daily_data;
                    total_days := len daily_data;
                    timeframe := timeframe;
                    daily_data := daily_data |}
        end
    end.

(** The calls of a run in which all three adapters run to their [return]. *)
Definition all_adapter_calls (get : http) (w : reddit_world) (tw : trends_world)
  (timestamp : datetime -> Z) (keyword : string) (start end_ : datetime)
  (token : option string) : calls :=
  adapter_calls get w timestamp keyword start end_ token
    (Returned (option_map IsDict (fetch_google_trends_score tw keyword start end_))).

(** ** Characters of a file name *)

(** The characters a generated file name is made of. *)
Definition filename_safe (c : ascii) : bool :=
  (PyStr.islower c || PyStr.isdigit c || Ascii.eqb c "_" || Ascii.eqb c "-"
   || Ascii.eqb c ".")%bool.

Definition all_chars (p : ascii -> bool) (s : string) : bool :=
  forallb p (list_ascii_of_string s).

(** ** Shape of a returned event *)

(** The bounds the adapter puts on the fields of an event: the title is cut
    to 200 characters, the date text and the location to 100, and the link
    is empty or absolute. *)
Definition event_fields_bounded (e : event) : Prop :=
  (String.length (ev_title e) <= 200)%nat
  /\ (String.length (ev_date_text e) <= 100)%nat
  /\ (String.length (ev_location e) <= 100)%nat
  /\ (ev_link e = "" \/ PyStr.startswith (ev_link e) "http" = true)
  /\ (ev_source e = "eventbrite_scrape" \/ ev_source e = "eventbrite_links").

(** What it means for the request of one URL to yield nothing: it raised,
    it answered with a 4xx or 5xx status, or its page has no element for any
    selector and no event link. *)
Definition yields_nothing (response : outcome (Z * page)) : Prop :=
  match response with
  | Raised _ => True
  | Returned (status_code, soup) =>
      is_error_status status_code = true
      \/ (Forall (fun s => select soup s = []) selectors
          /\ filter is_event_link (anchors soup) = [])
  end.

(** ** Further sample inputs *)

Definition sample_trends_world (found : outcome frame) : trends_world :=
  {| TrendReq := true; interest_over_time := fun _ _ => found |}.

Definition sample_frame : frame :=
  {| rows := [(mk_datetime 2024 5 1 0 0 0, 40);
              (mk_datetime 2024 5 2 0 0 0, 75);
              (mk_datetime 2024 5 3 0 0 0, 60)];
     mean_truncated := 58 |}.

Definition sample_card (title : string) : card :=
  Returned {| heading_text := Some title;
              card_text := title;
              date_elem_text := Some "Sat, 4 May";
              location_elem_text := None;
              first_href := Some "/e/1" |}.

(** A page whose only matching selector is ".event-card". *)
Definition sample_page : page :=
  {| select := fun selector =>
       if String.eqb selector ".event-card"
       then [sample_card "Taylor Swift tribute"; Raised "broken card";
             sample_card "Quiz night"]
       else [];
     anchors := [] |}.

(** * Properties *)

(** ** Strings *)

Lemma contains_empty (hay : string) : PyStr.contains "" hay = true.
Proof. destruct hay; reflexivity. Qed.

Lemma lower_empty : PyStr.lower "" = "".
Proof. reflexivity. Qed.

Lemma split_empty : PyStr.split "" = [].
Proof. reflexivity. Qed.

(** ** The scorer *)

Section Scorer.

Variable title_lower : string.

Lemma add_word_points_step (score : Z) (word : string) :
  add_word_points title_lower score word
  = score + add_word_points title_lower 0 word.
Proof.
  unfold add_word_points.
  destruct (PyStr.contains word title_lower); lia.
Qed.

Lemma add_word_points_nonneg (word : string) :
  0 <= add_word_points title_lower 0 word.
Proof.
  unfold add_word_points.
  destruct (PyStr.contains word title_lower); lia.
Qed.

(** The word loop adds to whatever [score] it starts from. *)
Lemma word_loop_shift (words : list string) :
  forall score,
    fold_left (add_word_points title_lower) words score
    = score + fold_left (add_word_points title_lower) words 0.
Proof.
  induction words as [|word rest IH]; intros score; simpl.
  - lia.
  - rewrite (IH (add_word_points title_lower score word)).
    rewrite (IH (add_word_points title_lower 0 word)).
    rewrite (add_word_points_step score word).
    lia.
Qed.

Lemma word_loop_nonneg (words : list string) :
  0 <= fold_left (add_word_points title_lower) words 0.
Proof.
  induction words as [|word rest IH]; simpl.
  - lia.
  - rewrite word_loop_shift.
    pose proof (add_word_points_nonneg word).
    lia.
Qed.

End Scorer.

(** The score before clamping is the sum of the three contributions. *)
Lemma score_before_clamp_sum (title keyword : string) :
  score_before_clamp title keyword
  = exact_match_points (PyStr.lower title) (PyStr.lower keyword)
    + word_match_points (PyStr.lower title) (PyStr.lower keyword)
    + event_bonus_points (PyStr.lower title).
Proof.
  unfold score_before_clamp, exact_match_points, word_match_points,
    event_bonus_points.
  rewrite word_loop_shift.
  destruct (PyStr.contains (PyStr.lower keyword) (PyStr.lower title));
    destruct (existsb _ event_terms); lia.
Qed.

Lemma event_bonus_points_cases (title_lower : string) :
  event_bonus_points title_lower = 0 \/ event_bonus_points title_lower = 20.
Proof.
  unfold event_bonus_points.
  destruct (existsb _ event_terms); [right | left]; reflexivity.
Qed.

Lemma score_before_clamp_nonneg (title keyword : string) :
  0 <= score_before_clamp title keyword.
Proof.
  rewrite score_before_clamp_sum.
  pose proof (word_loop_nonneg (PyStr.lower title)
                (PyStr.split (PyStr.lower keyword))) as Hw.
  unfold word_match_points, exact_match_points.
  destruct (event_bonus_points_cases (PyStr.lower title)) as [-> | ->];
    destruct (PyStr.contains (PyStr.lower keyword) (PyStr.lower title)); lia.
Qed.

(** A full keyword match alone already reaches 100. *)
Lemma full_match_reaches_100 (title keyword : string) :
  PyStr.contains (PyStr.lower keyword) (PyStr.lower title) = true ->
  100 <= score_before_clamp title keyword.
Proof.
  intros Hsub.
  rewrite score_before_clamp_sum.
  pose proof (word_loop_nonneg (PyStr.lower title)
                (PyStr.split (PyStr.lower keyword))) as Hw.
  unfold word_match_points, exact_match_points.
  rewrite Hsub.
  destruct (event_bonus_points_cases (PyStr.lower title)) as [-> | ->]; lia.
Qed.

Lemma clamp_of_large (score : Z) : 100 <= score -> clamp score = 100.
Proof. unfold clamp; lia. Qed.

(** C5: for every text and keyword, the empty strings included,
    [calculate_relevance_score] returns an integer between 0 and 100, both
    ends included. *)
Theorem calculate_relevance_score_in_0_100 :
  forall title keyword : string,
    0 <= calculate_relevance_score title keyword <= 100.
Proof.
  intros title keyword.
  unfold calculate_relevance_score, clamp.
  lia.
Qed.

(** C6: when the keyword is not empty and, lowercased, occurs in the
    lowercased text, the score is at least 100 before clamping, the returned
    score is exactly 100, and it passes the threshold of 90. *)
Theorem keyword_substring_scores_100 :
  forall text keyword : string,
    keyword <> "" ->
    PyStr.contains (PyStr.lower keyword) (PyStr.lower text) = true ->
    100 <= score_before_clamp text keyword
    /\ calculate_relevance_score text keyword = 100
    /\ passes_threshold (calculate_relevance_score text keyword) = true.
Proof.
  intros text keyword _ Hsub.
  pose proof (full_match_reaches_100 text keyword Hsub) as Hge.
  assert (Hc : calculate_relevance_score text keyword = 100)
    by (unfold calculate_relevance_score; apply clamp_of_large; exact Hge).
  split; [exact Hge | split; [exact Hc |]].
  rewrite Hc.
  reflexivity.
Qed.

Lemma keyword_substring_scores_100_witness :
  "taylor swift" <> ""
  /\ PyStr.contains (PyStr.lower "taylor swift")
       (PyStr.lower "Taylor Swift Live in London") = true
  /\ 100 <= score_before_clamp "Taylor Swift Live in London" "taylor swift"
  /\ calculate_relevance_score "Taylor Swift Live in London" "taylor swift" = 100
  /\ passes_threshold
       (calculate_relevance_score "Taylor Swift Live in London" "taylor swift")
     = true.
Proof.
  split; [discriminate |].
  split; [reflexivity |].
  apply (keyword_substring_scores_100 "Taylor Swift Live in London" "taylor swift");
    [discriminate | reflexivity].
Defined.

(** C2, as stated, fails: with the empty keyword and the text "abc" the
    keyword match adds 100 and the score is 100, while the event-term bonus
    of "abc" is 0. *)
Lemma empty_keyword_counterexample :
  exact_match_points (PyStr.lower "abc") (PyStr.lower "") = 100
  /\ event_bonus_points (PyStr.lower "abc") = 0
  /\ clamp (event_bonus_points (PyStr.lower "abc")) = 0
  /\ calculate_relevance_score "abc" "" = 100.
Proof. repeat split. Qed.

(** C2, amended: for every text the score with the empty keyword is 100.
    The empty keyword occurs in every text, so the keyword match adds 100;
    the empty keyword has no words, so the word loop adds nothing; the
    event-term bonus cannot change the clamped result. *)
Theorem empty_keyword_scores_100 :
  forall text : string,
    exact_match_points (PyStr.lower text) (PyStr.lower "") = 100
    /\ word_match_points (PyStr.lower text) (PyStr.lower "") = 0
    /\ calculate_relevance_score text "" = 100.
Proof.
  intros text.
  assert (He : exact_match_points (PyStr.lower text) (PyStr.lower "") = 100).
  { unfold exact_match_points.
    rewrite lower_empty, contains_empty.
    reflexivity. }
  assert (Hw : word_match_points (PyStr.lower text) (PyStr.lower "") = 0)
    by reflexivity.
  split; [exact He | split; [exact Hw |]].
  unfold calculate_relevance_score.
  rewrite score_before_clamp_sum, He, Hw.
  destruct (event_bonus_points_cases (PyStr.lower text)) as [-> | ->];
    reflexivity.
Qed.

(** ** Dates and file names *)

(** The membership test of the discussion adapter. *)
Lemma in_date_range_spec (start_ts end_ts created_utc : Z) :
  in_date_range start_ts end_ts created_utc = true
  <-> start_ts <= created_utc <= end_ts.
Proof.
  unfold in_date_range.
  rewrite andb_true_iff, !Z.leb_le.
  reflexivity.
Qed.

(** A single date gives a range that ends one day after it starts. *)
Lemma single_date_range (date : string) (start end_ : datetime) :
  PyStr.contains "," date = false ->
  parse_date_input date = Some (start, end_) ->
  fromisoformat date = Some start /\ add_one_day start = Some end_.
Proof.
  unfold parse_date_input.
  intros -> H.
  destruct (fromisoformat date) as [s|]; simpl in H; [| discriminate].
  destruct (add_one_day s) as [e|] eqn:He; simpl in H; [| discriminate].
  injection H as <- <-.
  split; [reflexivity | exact He].
Qed.

(** C8, as stated, fails: the range is not half-open. For the date input
    "2024-05-01" the end bound is 2024-05-02T00:00:00, which is epoch second
    1714608000 when the start is 1714521600 (the two midnights in UTC; in
    any other time zone both move by the same offset). A submission created
    at exactly the end bound is within the range the discussion adapter
    tests, and it is counted. *)
Lemma date_range_end_counterexample :
  parse_date_input "2024-05-01"
  = Some (mk_datetime 2024 5 1 0 0 0, mk_datetime 2024 5 2 0 0 0)
  /\ 1714608000 = 1714521600 + 86400
  /\ in_date_range 1714521600 1714608000 1714608000 = true
  /\ rd_count
       (fetch_reddit_mentions
          (sample_world
             (Returned [sample_submission "Taylor Swift tour" 1714608000]))
          "taylor swift" 1714521600 1714608000) = 1
  /\ map post_created_utc
       (rd_posts
          (fetch_reddit_mentions
             (sample_world
                (Returned [sample_submission "Taylor Swift tour" 1714608000]))
             "taylor swift" 1714521600 1714608000))
     = [1714608000].
Proof.
  split; [reflexivity |].
  split; [reflexivity |].
  split; [reflexivity |].
  split; reflexivity.
Qed.

(** C8, amended: the date input "2024-05-01" gives the two bounds
    2024-05-01T00:00:00 and 2024-05-02T00:00:00, the start plus one day; the
    input "2024-05-01,2024-05-10" gives these two dates as start and end.
    The range between the bounds is closed at both ends where the program
    tests membership in it: a creation time is in range exactly when it is
    neither before the start bound nor after the end bound, so the end bound
    itself is in range. *)
Theorem date_input_bounds_of_closed_range :
  parse_date_input "2024-05-01"
  = Some (mk_datetime 2024 5 1 0 0 0, mk_datetime 2024 5 2 0 0 0)
  /\ add_one_day (mk_datetime 2024 5 1 0 0 0) = Some (mk_datetime 2024 5 2 0 0 0)
  /\ option_map (fun r => (isoformat (fst r), isoformat (snd r)))
       (parse_date_input "2024-05-01")
     = Some ("2024-05-01T00:00:00", "2024-05-02T00:00:00")
  /\ parse_date_input "2024-05-01,2024-05-10"
     = Some (mk_datetime 2024 5 1 0 0 0, mk_datetime 2024 5 10 0 0 0)
  /\ (forall start_ts end_ts created_utc : Z,
        in_date_range start_ts end_ts created_utc = true
        <-> start_ts <= created_utc <= end_ts)
  /\ (forall start_ts end_ts : Z,
        start_ts <= end_ts ->
        in_date_range start_ts end_ts start_ts = true
        /\ in_date_range start_ts end_ts end_ts = true).
Proof.
  split; [reflexivity |].
  split; [reflexivity |].
  split; [reflexivity |].
  split; [reflexivity |].
  split; [exact in_date_range_spec |].
  intros start_ts end_ts Hle.
  split; apply in_date_range_spec; lia.
Qed.

(** C9: for the keyword "Taylor Swift!!" and the time 2024-05-01 13:05:09,
    [create_output_filename] returns
    "taylor_swift_20240501_130509_search_output.json". *)
Theorem create_output_filename_taylor_swift :
  create_output_filename "Taylor Swift!!" (mk_datetime 2024 5 1 13 5 9)
  = "taylor_swift_20240501_130509_search_output.json".
Proof. reflexivity. Qed.

(** ** Event-listing adapter *)

Lemma len_nil {A : Type} : len (@nil A) = 0.
Proof. reflexivity. Qed.

Lemma try_selectors_shape (keyword : string) (pg : page) (sels : list string)
  (r : eventbrite_result) :
  try_selectors keyword pg sels = Some r ->
  exists selector events, r = result_of_cards selector events.
Proof.
  induction sels as [|selector rest IH]; simpl; intros H.
  - discriminate.
  - destruct (select pg selector) as [|c cards].
    + apply IH; exact H.
    + injection H as <-.
      eexists; eexists; reflexivity.
Qed.

(** A fetch that finds something ends in one of the two result dicts. *)
Lemma try_urls_shape (keyword : string) (get : http) (urls : list string)
  (r : eventbrite_result) :
  try_urls keyword get urls = Some r ->
  (exists selector events, r = result_of_cards selector events)
  \/ (exists events, r = result_of_links events).
Proof.
  induction urls as [|url rest IH]; cbn [try_urls]; intros H.
  - discriminate.
  - destruct (get url) as [[status_code soup] | msg]; [| auto].
    destruct (status_code =? 404); [auto |].
    destruct (is_error_status status_code); [auto |].
    destruct (try_selectors keyword soup selectors) as [r' |] eqn:Hsel.
    + injection H as <-.
      left; eapply try_selectors_shape; exact Hsel.
    + destruct (filter is_event_link (anchors soup)) as [|a links]; [auto |].
      injection H as <-.
      right; eexists; reflexivity.
Qed.

Lemma try_selectors_none (keyword : string) (pg : page) (sels : list string) :
  try_selectors keyword pg sels = None
  <-> Forall (fun s => select pg s = []) sels.
Proof.
  induction sels as [|selector rest IH]; cbn [try_selectors].
  - split; [intros _; apply Forall_nil | reflexivity].
  - destruct (select pg selector) as [|c cards] eqn:E.
    + rewrite IH.
      split; intros H.
      * apply Forall_cons; [exact E | exact H].
      * inversion H; assumption.
    + split; intros H; [discriminate H |].
      inversion H as [|? ? Hhd _]; subst.
      rewrite E in Hhd; discriminate Hhd.
Qed.

(** The selector loop stops at the first selector that matches anything. *)
Lemma try_selectors_first (keyword : string) (pg : page) (sels : list string)
  (r : eventbrite_result) :
  try_selectors keyword pg sels = Some r ->
  exists pre selector post,
    sels = (pre ++ selector :: post)%list
    /\ Forall (fun s => select pg s = []) pre
    /\ select pg selector <> []
    /\ r = result_of_cards selector (events_of_cards keyword (select pg selector)).
Proof.
  induction sels as [|selector rest IH]; cbn [try_selectors]; intros H.
  - discriminate H.
  - destruct (select pg selector) as [|c cards] eqn:E.
    + destruct (IH H) as (pre & sel & post & -> & Hpre & Hne & Hr).
      exists (selector :: pre), sel, post.
      split; [reflexivity |].
      split; [apply Forall_cons; [exact E | exact Hpre] |].
      split; [exact Hne | exact Hr].
    + injection H as <-.
      exists [], selector, rest.
      split; [reflexivity |].
      split; [apply Forall_nil |].
      rewrite E.
      split; [discriminate | reflexivity].
Qed.

(** Where a result of the URL loop comes from: the first URL that answers
    without an error status and whose page has a matching selector or, failing
    that, event links. *)
Lemma try_urls_origin (keyword : string) (get : http) (urls : list string)
  (r : eventbrite_result) :
  try_urls keyword get urls = Some r ->
  exists url status_code soup,
    In url urls
    /\ get url = Returned (status_code, soup)
    /\ is_error_status status_code = false
    /\ ((exists pre selector post,
            selectors = (pre ++ selector :: post)%list
            /\ Forall (fun s => select soup s = []) pre
            /\ select soup selector <> []
            /\ r = result_of_cards selector
                     (events_of_cards keyword (select soup selector)))
        \/ (Forall (fun s => select soup s = []) selectors
            /\ filter is_event_link (anchors soup) <> []
            /\ r = result_of_links
                     (events_of_links keyword 0
                        (filter is_event_link (anchors soup))))).
Proof.
  induction urls as [|url rest IH]; cbn [try_urls]; intros H.
  - discriminate H.
  - assert (Hrest : try_urls keyword get rest = Some r ->
                    exists url0 status_code soup,
                      In url0 (url :: rest)
                      /\ get url0 = Returned (status_code, soup)
                      /\ is_error_status status_code = false
                      /\ ((exists pre selector post,
                              selectors = (pre ++ selector :: post)%list
                              /\ Forall (fun s => select soup s = []) pre
                              /\ select soup selector <> []
                              /\ r = result_of_cards selector
                                       (events_of_cards keyword (select soup selector)))
                          \/ (Forall (fun s => select soup s = []) selectors
                              /\ filter is_event_link (anchors soup) <> []
                              /\ r = result_of_links
                                       (events_of_links keyword 0
                                          (filter is_event_link (anchors soup)))))).
    { intros H'.
      destruct (IH H') as (url0 & st & pg & Hin & Hrest).
      exists url0, st, pg.
      split; [right; exact Hin | exact Hrest]. }
    destruct (get url) as [[status_code soup] | msg] eqn:Hget;
      [| exact (Hrest H)].
    destruct (status_code =? 404); [exact (Hrest H) |].
    destruct (is_error_status status_code) eqn:Hstatus; [exact (Hrest H) |].
    destruct (try_selectors keyword soup selectors) as [r' |] eqn:Hsel.
    + injection H as <-.
      exists url, status_code, soup.
      split; [left; reflexivity |].
      split; [exact Hget |].
      split; [exact Hstatus |].
      left; apply try_selectors_first; exact Hsel.
    + destruct (filter is_event_link (anchors soup)) as [|a links] eqn:Hlinks;
        [exact (Hrest H) |].
      injection H as <-.
      exists url, status_code, soup.
      split; [left; reflexivity |].
      split; [exact Hget |].
      split; [exact Hstatus |].
      right.
      split; [exact (proj1 (try_selectors_none keyword soup selectors) Hsel) |].
      rewrite Hlinks.
      split; [discriminate | reflexivity].
Qed.

Lemma status_404_is_error (status_code : Z) :
  (status_code =? 404) = true -> is_error_status status_code = true.
Proof.
  intros H.
  apply Z.eqb_eq in H.
  subst status_code.
  reflexivity.
Qed.

Lemma try_urls_none (keyword : string) (get : http) (urls : list string) :
  try_urls keyword get urls = None
  <-> Forall (fun url => yields_nothing (get url)) urls.
Proof.
  induction urls as [|url rest IH]; cbn [try_urls].
  - split; [intros _; apply Forall_nil | reflexivity].
  - rewrite Forall_cons_iff, <- IH.
    clear IH.
    unfold yields_nothing at 1.
    destruct (get url) as [[status_code soup] | msg].
    + destruct (status_code =? 404) eqn:E404.
      { apply status_404_is_error in E404.
        split; [intros H; split; [left; exact E404 | exact H] | intros [_ H]; exact H]. }
      destruct (is_error_status status_code) eqn:Estatus.
      { split; [intros H; split; [left; reflexivity | exact H]
               | intros [_ H]; exact H]. }
      destruct (try_selectors keyword soup selectors) as [r |] eqn:Hsel.
      { split; [intros H; discriminate H |].
        intros [[H | [H _]] _]; [discriminate H |].
        apply (try_selectors_none keyword soup selectors) in H.
        rewrite H in Hsel; discriminate Hsel. }
      apply (try_selectors_none keyword soup selectors) in Hsel.
      destruct (filter is_event_link (anchors soup)) as [|a links].
      { split; [intros H; split; [right; split; [exact Hsel | reflexivity] | exact H]
               | intros [_ H]; exact H]. }
      split; [intros H; discriminate H |].
      intros [[H | [_ H]] _]; discriminate H.
    + split; [intros H; split; [exact I | exact H] | intros [_ H]; exact H].
Qed.

(** The URL loop stops at the first URL that yields anything. *)
Lemma try_urls_first (keyword : string) (get : http) (urls : list string)
  (r : eventbrite_result) :
  try_urls keyword get urls = Some r ->
  exists before url after status_code soup,
    urls = (before ++ url :: after)%list
    /\ Forall (fun u => yields_nothing (get u)) before
    /\ get url = Returned (status_code, soup)
    /\ is_error_status status_code = false
    /\ ((exists pre selector post,
            selectors = (pre ++ selector :: post)%list
            /\ Forall (fun s => select soup s = []) pre
            /\ select soup selector <> []
            /\ r = result_of_cards selector
                     (events_of_cards keyword (select soup selector)))
        \/ (Forall (fun s => select soup s = []) selectors
            /\ filter is_event_link (anchors soup) <> []
            /\ r = result_of_links
                     (events_of_links keyword 0
                        (filter is_event_link (anchors soup))))).
Proof.
  induction urls as [|url rest IH]; cbn [try_urls]; intros H.
  - discriminate H.
  - assert (Hrest : yields_nothing (get url) ->
                    try_urls keyword get rest = Some r ->
                    exists before url0 after status_code soup,
                      (url :: rest = before ++ url0 :: after)%list
                      /\ Forall (fun u => yields_nothing (get u)) before
                      /\ get url0 = Returned (status_code, soup)
                      /\ is_error_status status_code = false
                      /\ ((exists pre selector post,
                              selectors = (pre ++ selector :: post)%list
                              /\ Forall (fun s => select soup s = []) pre
                              /\ select soup selector <> []
                              /\ r = result_of_cards selector
                                       (events_of_cards keyword (select soup selector)))
                          \/ (Forall (fun s => select soup s = []) selectors
                              /\ filter is_event_link (anchors soup) <> []
                              /\ r = result_of_links
                                       (events_of_links keyword 0
                                          (filter is_event_link (anchors soup)))))).
    { intros Hnothing H'.
      destruct (IH H') as (before & url0 & after & st & pg & -> & Hbefore & Htail).
      exists (url :: before), url0, after, st, pg.
      split; [reflexivity |].
      split; [apply Forall_cons; [exact Hnothing | exact Hbefore] | exact Htail]. }
    unfold yields_nothing at 1 in Hrest.
    destruct (get url) as [[status_code soup] | msg] eqn:Hget;
      [| exact (Hrest I H)].
    destruct (status_code =? 404) eqn:E404;
      [exact (Hrest (or_introl (status_404_is_error status_code E404)) H) |].
    destruct (is_error_status status_code) eqn:Hstatus;
      [exact (Hrest (or_introl eq_refl) H) |].
    destruct (try_selectors keyword soup selectors) as [r' |] eqn:Hsel.
    + injection H as <-.
      exists [], url, rest, status_code, soup.
      split; [reflexivity |].
      split; [apply Forall_nil |].
      split; [exact Hget |].
      split; [exact Hstatus |].
      left; apply try_selectors_first; exact Hsel.
    + pose proof (proj1 (try_selectors_none keyword soup selectors) Hsel) as Hnone.
      destruct (filter is_event_link (anchors soup)) as [|a links] eqn:Hlinks;
        [exact (Hrest (or_intror (conj Hnone eq_refl)) H) |].
      injection H as <-.
      exists [], url, rest, status_code, soup.
      split; [reflexivity |].
      split; [apply Forall_nil |].
      split; [exact Hget |].
      split; [exact Hstatus |].
      right.
      split; [exact Hnone |].
      rewrite Hlinks.
      split; [discriminate | reflexivity].
Qed.

(** ** Discussion adapter *)

Lemma none_in_range (start_ts end_ts : Z) (submissions : list submission) :
  (forall s, In s submissions -> ~ (start_ts <= sub_created_utc s <= end_ts)) ->
  filter (fun s => in_date_range start_ts end_ts (sub_created_utc s)) submissions = [].
Proof.
  induction submissions as [|s rest IH]; simpl; intros H.
  - reflexivity.
  - destruct (in_date_range start_ts end_ts (sub_created_utc s)) eqn:E.
    + exfalso.
      apply (H s); [left; reflexivity | apply in_date_range_spec; exact E].
    + apply IH.
      intros s' Hs'; apply H; right; exact Hs'.
Qed.

Lemma len_firstn_10 {A : Type} (l : list A) :
  len (firstn 10 l) = Z.min 10 (len l).
Proof.
  unfold len.
  rewrite length_firstn.
  lia.
Qed.

Lemma len_map {A B : Type} (f : A -> B) (l : list A) : len (map f l) = len l.
Proof. unfold len; rewrite length_map; reflexivity. Qed.

Lemma In_firstn_le {A : Type} (n m : nat) (l : list A) (x : A) :
  (n <= m)%nat -> In x (firstn n l) -> In x (firstn m l).
Proof.
  revert m l.
  induction n as [|n IH]; intros m l Hle Hin.
  - destruct Hin.
  - destruct m as [|m]; [lia |].
    destruct l as [|y l]; [destruct Hin |].
    cbn [firstn In] in *.
    destruct Hin as [-> | Hin]; [left; reflexivity |].
    right; apply IH; [lia | exact Hin].
Qed.

(** The creation times the log loop rendered include those of the first ten
    submissions. *)
Lemma renders_all_firstn (w : reddit_world) (n m : nat) (subs : list submission) :
  (n <= m)%nat ->
  renders_all w (firstn m subs) = true -> renders_all w (firstn n subs) = true.
Proof.
  unfold renders_all.
  rewrite !forallb_forall.
  intros Hle H s Hs.
  apply H.
  apply (In_firstn_le n m); [exact Hle | exact Hs].
Qed.

(** The fields of a detailed post. *)
Lemma detailed_post_fields (w : reddit_world) (keyword : string)
  (start_ts end_ts : Z) (sub : submission) (p : post) :
  detailed_post w keyword start_ts end_ts sub = Some p ->
  post_title p = sub_title sub
  /\ post_created_utc p = sub_created_utc sub
  /\ post_in_date_range p = in_date_range start_ts end_ts (sub_created_utc sub)
  /\ post_relevance_score p = calculate_relevance_score (sub_title sub) keyword.
Proof.
  unfold detailed_post.
  destruct (format_timestamp w (sub_created_utc sub)) as [created_date |];
    cbn [bind]; intros H; [| discriminate H].
  injection H as <-.
  split; [reflexivity |].
  split; [reflexivity |].
  split; reflexivity.
Qed.

(** The loop over [posts_to_return] fails exactly when a creation time does
    not render. *)
Lemma detailed_posts_of_None (w : reddit_world) (keyword : string)
  (start_ts end_ts : Z) (subs : list submission) :
  detailed_posts_of w keyword start_ts end_ts subs = None
  <-> renders_all w subs = false.
Proof.
  induction subs as [|sub rest IH]; cbn [detailed_posts_of renders_all forallb].
  - split; intros H; discriminate H.
  - unfold detailed_post.
    destruct (format_timestamp w (sub_created_utc sub)) as [created_date |];
      cbn [bind andb]; [| split; reflexivity].
    fold (renders_all w rest).
    rewrite <- IH.
    destruct (detailed_posts_of w keyword start_ts end_ts rest) as [ps |];
      cbn [bind]; split; intros H; first [discriminate H | reflexivity].
Qed.

Lemma detailed_posts_of_Forall2 (w : reddit_world) (keyword : string)
  (start_ts end_ts : Z) (subs : list submission) (ps : list post) :
  detailed_posts_of w keyword start_ts end_ts subs = Some ps ->
  Forall2 (fun sub p => detailed_post w keyword start_ts end_ts sub = Some p) subs ps.
Proof.
  revert ps.
  induction subs as [|sub rest IH]; cbn [detailed_posts_of]; intros ps H.
  - injection H as <-.
    apply Forall2_nil.
  - destruct (detailed_post w keyword start_ts end_ts sub) as [p |] eqn:Hp;
      cbn [bind] in H; [| discriminate H].
    destruct (detailed_posts_of w keyword start_ts end_ts rest) as [ps' |];
      cbn [bind] in H; [| discriminate H].
    injection H as <-.
    apply Forall2_cons; [exact Hp | apply IH; reflexivity].
Qed.

Lemma detailed_posts_of_len (w : reddit_world) (keyword : string)
  (start_ts end_ts : Z) (subs : list submission) (ps : list post) :
  detailed_posts_of w keyword start_ts end_ts subs = Some ps -> len ps = len subs.
Proof.
  intros H.
  apply detailed_posts_of_Forall2, Forall2_length in H.
  unfold len.
  rewrite H.
  reflexivity.
Qed.

(** Every detailed post comes from one of the submissions. *)
Lemma detailed_posts_of_In (w : reddit_world) (keyword : string)
  (start_ts end_ts : Z) (subs : list submission) (ps : list post) (p : post) :
  detailed_posts_of w keyword start_ts end_ts subs = Some ps ->
  In p ps ->
  exists sub, In sub subs /\ detailed_post w keyword start_ts end_ts sub = Some p.
Proof.
  intros H.
  apply detailed_posts_of_Forall2 in H.
  induction H as [|sub p' subs' ps' Hp _ IH]; intros Hin.
  - destruct Hin.
  - destruct Hin as [<- | Hin].
    + exists sub; split; [left; reflexivity | exact Hp].
    + destruct (IH Hin) as (sub' & Hsub' & Hp').
      exists sub'; split; [right; exact Hsub' | exact Hp'].
Qed.

(** The detailed posts of the in-range submissions are all flagged as in
    range. *)
Lemma detailed_posts_in_range (w : reddit_world) (keyword : string)
  (start_ts end_ts : Z) (subs : list submission) (ps : list post) :
  Forall (fun sub => in_date_range start_ts end_ts (sub_created_utc sub) = true) subs ->
  detailed_posts_of w keyword start_ts end_ts subs = Some ps ->
  filter post_in_date_range ps = ps.
Proof.
  intros Hall H.
  apply detailed_posts_of_Forall2 in H.
  induction H as [|sub p subs' ps' Hp _ IH]; [reflexivity |].
  inversion Hall as [|? ? Hsub Hrest]; subst.
  apply detailed_post_fields in Hp.
  destruct Hp as (_ & _ & Hflag & _).
  cbn [filter].
  rewrite Hflag, Hsub, (IH Hrest).
  reflexivity.
Qed.

Lemma filter_all_true {A : Type} (f : A -> bool) (l : list A) :
  Forall (fun x => f x = true) (filter f l).
Proof.
  apply Forall_forall.
  intros x Hx.
  apply filter_In in Hx.
  exact (proj2 Hx).
Qed.

(** The body of the [try] by cases: an exception in the log loop; the early
    [return] when no submission is in range; an exception in the loop over
    the in-range submissions; the last [return]. *)
Lemma process_submissions_cases (w : reddit_world) (keyword : string)
  (start_ts end_ts : Z) (submissions : list submission) :
  let in_range :=
    filter (fun s => in_date_range start_ts end_ts (sub_created_utc s)) submissions in
  process_submissions w keyword start_ts end_ts submissions
  = if renders_all w (firstn 20 submissions) then
      match in_range with
      | [] =>
          Some
            {| rd_count := 0;
               rd_posts := [];
               rd_in_date_range := Some 0;
               rd_source := Some "reddit_api";
               rd_total_posts_found := Some (Z.min 10 (len submissions));
               rd_posts_in_date_range := None;
               rd_relevance_threshold := Some 90;
               rd_error := None |}
      | _ =>
          match detailed_posts_of w keyword start_ts end_ts in_range with
          | Some eligible =>
              let posts :=
                filter (fun p => 90 <=? post_relevance_score p) eligible in
              Some
                {| rd_count := len posts;
                   rd_posts := posts;
                   rd_in_date_range := Some (len posts);
                   rd_source := Some "reddit_api";
                   rd_total_posts_found := Some (len in_range);
                   rd_posts_in_date_range := Some (len in_range);
                   rd_relevance_threshold := Some 90;
                   rd_error := None |}
          | None => None
          end
      end
    else None.
Proof.
  intros in_range.
  unfold process_submissions, log_submissions.
  destruct (renders_all w (firstn 20 submissions)) eqn:H20; cbn [guard bind];
    [| reflexivity].
  fold in_range.
  assert (Hall : Forall
                   (fun sub => in_date_range start_ts end_ts (sub_created_utc sub) = true)
                   in_range)
    by apply (filter_all_true
                (fun s => in_date_range start_ts end_ts (sub_created_utc s))).
  destruct in_range as [|s0 rest].
  - apply (renders_all_firstn w 10 20) in H20; [| lia].
    destruct (detailed_posts_of w keyword start_ts end_ts (firstn 10 submissions))
      as [detailed_posts |] eqn:Hd.
    + cbn [bind].
      apply detailed_posts_of_len in Hd.
      rewrite Hd, len_firstn_10.
      reflexivity.
    + apply detailed_posts_of_None in Hd.
      rewrite Hd in H20; discriminate H20.
  - destruct (detailed_posts_of w keyword start_ts end_ts (s0 :: rest))
      as [eligible |] eqn:Hd; cbn [bind]; [| reflexivity].
    change (len (s0 :: rest) =? 0) with (Z.of_nat (S (List.length rest)) =? 0).
    destruct (Z.of_nat (S (List.length rest)) =? 0) eqn:E;
      [apply Z.eqb_eq in E; lia |].
    rewrite (detailed_posts_in_range w keyword start_ts end_ts (s0 :: rest)
               eligible Hall Hd).
    rewrite (detailed_posts_of_len w keyword start_ts end_ts (s0 :: rest)
               eligible Hd).
    reflexivity.
Qed.

(** With no submission in range the adapter takes its early [return],
    unless a creation time of the first twenty does not render. *)
Lemma process_submissions_none_in_range (w : reddit_world) (keyword : string)
  (start_ts end_ts : Z) (submissions : list submission) :
  filter (fun s => in_date_range start_ts end_ts (sub_created_utc s)) submissions = [] ->
  process_submissions w keyword start_ts end_ts submissions
  = if renders_all w (firstn 20 submissions) then
      Some
        {| rd_count := 0;
           rd_posts := [];
           rd_in_date_range := Some 0;
           rd_source := Some "reddit_api";
           rd_total_posts_found := Some (Z.min 10 (len submissions));
           rd_posts_in_date_range := None;
           rd_relevance_threshold := Some 90;
           rd_error := None |}
    else None.
Proof.
  intros Hnone.
  rewrite process_submissions_cases.
  cbv zeta.
  rewrite Hnone.
  reflexivity.
Qed.

(** What a result of the body of the [try] is made of. *)
Lemma process_submissions_Some (w : reddit_world) (keyword : string)
  (start_ts end_ts : Z) (submissions : list submission) (r : reddit_result) :
  process_submissions w keyword start_ts end_ts submissions = Some r ->
  exists eligible,
    renders_all w (firstn 20 submissions) = true
    /\ detailed_posts_of w keyword start_ts end_ts
         (filter (fun s => in_date_range start_ts end_ts (sub_created_utc s))
            submissions)
       = Some eligible
    /\ rd_posts r = filter (fun p => 90 <=? post_relevance_score p) eligible
    /\ rd_count r = len (rd_posts r)
    /\ rd_source r = Some "reddit_api"
    /\ rd_error r = None
    /\ rd_in_date_range r = Some (rd_count r).
Proof.
  rewrite process_submissions_cases.
  cbv zeta.
  destruct (renders_all w (firstn 20 submissions)); [| intros H; discriminate H].
  destruct (filter (fun s => in_date_range start_ts end_ts (sub_created_utc s))
              submissions) as [|s0 rest].
  - intros H; injection H as <-.
    exists [].
    split; [reflexivity |].
    split; [reflexivity |].
    split; [reflexivity |].
    split; [reflexivity |].
    split; [reflexivity |].
    split; reflexivity.
  - destruct (detailed_posts_of w keyword start_ts end_ts (s0 :: rest))
      as [eligible |]; [| intros H; discriminate H].
    intros H; injection H as <-.
    exists eligible.
    split; [reflexivity |].
    split; [reflexivity |].
    split; [reflexivity |].
    split; [reflexivity |].
    split; [reflexivity |].
    split; reflexivity.
Qed.

(** The body of the [try] raises exactly when a creation time among the
    first twenty submissions or among the in-range ones does not render. *)
Lemma process_submissions_None (w : reddit_world) (keyword : string)
  (start_ts end_ts : Z) (submissions : list submission) :
  process_submissions w keyword start_ts end_ts submissions = None
  <-> (renders_all w (firstn 20 submissions)
       && renders_all w
            (filter (fun s => in_date_range start_ts end_ts (sub_created_utc s))
               submissions))%bool = false.
Proof.
  rewrite process_submissions_cases.
  cbv zeta.
  destruct (renders_all w (firstn 20 submissions)); cbn [andb];
    [| split; reflexivity].
  destruct (filter (fun s => in_date_range start_ts end_ts (sub_created_utc s))
              submissions) as [|s0 rest] eqn:Hf.
  - split; intros H; discriminate H.
  - rewrite <- (detailed_posts_of_None w keyword start_ts end_ts (s0 :: rest)).
    destruct (detailed_posts_of w keyword start_ts end_ts (s0 :: rest));
      split; intros H; first [discriminate H | reflexivity].
Qed.

(** What the adapter returns once the search has returned. *)
Lemma fetch_reddit_mentions_searched (w : reddit_world) (keyword : string)
  (start_ts end_ts : Z) (submissions : list submission) :
  env_truthy (REDDIT_CLIENT_ID w) = true ->
  env_truthy (REDDIT_CLIENT_SECRET w) = true ->
  praw w = true ->
  search w uk_subreddits keyword = Returned submissions ->
  fetch_reddit_mentions w keyword start_ts end_ts
  = match process_submissions w keyword start_ts end_ts submissions with
    | Some result => result
    | None => no_api
    end.
Proof.
  intros Hid Hsecret Hpraw Hsearch.
  unfold fetch_reddit_mentions.
  rewrite Hid, Hsecret, Hpraw, Hsearch.
  reflexivity.
Qed.

(** A creation time that does not render turns an in-range, relevant
    submission into the "no_api" result. *)
Example unrendered_creation_time_gives_no_api :
  fetch_reddit_mentions
    (sample_world (Returned [sample_submission "Taylor Swift tour" 150]))
    "taylor swift" 100 200
  <> no_api
  /\ fetch_reddit_mentions
       (sample_world_unrendered (Returned [sample_submission "Taylor Swift tour" 150]))
       "taylor swift" 100 200
     = no_api.
Proof.
  split; [discriminate | reflexivity].
Qed.

(** C4: with credentials present and no fetched submission created within
    [[start_ts, end_ts]], the adapter returns count 0 and no posts, whatever
    the submissions outside the range score. *)
Theorem no_submission_in_range_gives_empty_result :
  forall (w : reddit_world) (keyword : string) (start_ts end_ts : Z)
         (submissions : list submission),
    env_truthy (REDDIT_CLIENT_ID w) = true ->
    env_truthy (REDDIT_CLIENT_SECRET w) = true ->
    praw w = true ->
    search w uk_subreddits keyword = Returned submissions ->
    (forall s, In s submissions -> ~ (start_ts <= sub_created_utc s <= end_ts)) ->
    rd_count (fetch_reddit_mentions w keyword start_ts end_ts) = 0
    /\ rd_posts (fetch_reddit_mentions w keyword start_ts end_ts) = [].
Proof.
  intros w keyword start_ts end_ts submissions Hid Hsecret Hpraw Hsearch Hnone.
  rewrite (fetch_reddit_mentions_searched w keyword start_ts end_ts submissions
             Hid Hsecret Hpraw Hsearch).
  rewrite (process_submissions_none_in_range w keyword start_ts end_ts submissions
             (none_in_range start_ts end_ts submissions Hnone)).
  destruct (renders_all w (firstn 20 submissions)); split; reflexivity.
Qed.

Lemma no_submission_in_range_gives_empty_result_witness :
  passes_threshold
    (calculate_relevance_score
       (sub_title (sample_submission "Taylor Swift tour" 50)) "taylor swift") = true
  /\ rd_count
       (fetch_reddit_mentions
          (sample_world (Returned [sample_submission "Taylor Swift tour" 50]))
          "taylor swift" 100 200) = 0
  /\ rd_posts
       (fetch_reddit_mentions
          (sample_world (Returned [sample_submission "Taylor Swift tour" 50]))
          "taylor swift" 100 200) = [].
Proof.
  split; [reflexivity |].
  apply (no_submission_in_range_gives_empty_result
           (sample_world (Returned [sample_submission "Taylor Swift tour" 50]))
           "taylor swift" 100 200 [sample_submission "Taylor Swift tour" 50]);
    try reflexivity.
  intros s [<- | []]; simpl; lia.
Defined.

(** C10: when no fetched submission is within [[start_ts, end_ts]] and the
    adapter reaches its zero-in-range [return], which it does exactly when
    the creation times of the first twenty submissions render, the reported
    [total_posts_found] is the smaller of 10 and the number of submissions
    fetched; with more than 10 fetched it is 10, less than the number found.
    When one of those creation times does not render, the exception is
    caught and the adapter returns its "no_api" dict, which has no
    [total_posts_found]. *)
Theorem total_posts_found_capped_at_10 :
  forall (w : reddit_world) (keyword : string) (start_ts end_ts : Z)
         (submissions : list submission),
    env_truthy (REDDIT_CLIENT_ID w) = true ->
    env_truthy (REDDIT_CLIENT_SECRET w) = true ->
    praw w = true ->
    search w uk_subreddits keyword = Returned submissions ->
    (forall s, In s submissions -> ~ (start_ts <= sub_created_utc s <= end_ts)) ->
    let r := fetch_reddit_mentions w keyword start_ts end_ts in
    (renders_all w (firstn 20 submissions) = true ->
     rd_source r = Some "reddit_api"
     /\ rd_total_posts_found r = Some (Z.min 10 (len submissions))
     /\ (10 < len submissions ->
         rd_total_posts_found r = Some 10
         /\ len (firstn 10 submissions) = 10))
    /\ (renders_all w (firstn 20 submissions) = false ->
        r = no_api /\ rd_total_posts_found r = None).
Proof.
  intros w keyword start_ts end_ts submissions Hid Hsecret Hpraw Hsearch Hnone r.
  subst r.
  rewrite (fetch_reddit_mentions_searched w keyword start_ts end_ts submissions
             Hid Hsecret Hpraw Hsearch).
  rewrite (process_submissions_none_in_range w keyword start_ts end_ts submissions
             (none_in_range start_ts end_ts submissions Hnone)).
  split; intros Hrenders; rewrite Hrenders.
  - cbn [rd_source rd_total_posts_found].
    split; [reflexivity |].
    split; [reflexivity |].
    intros Hmore.
    split; [f_equal; lia | rewrite len_firstn_10; lia].
  - split; reflexivity.
Qed.

Lemma total_posts_found_capped_at_10_witness :
  len eleven_early_submissions = 11
  /\ let r :=
       fetch_reddit_mentions (sample_world (Returned eleven_early_submissions))
         "taylor swift" 100 200 in
     (renders_all (sample_world (Returned eleven_early_submissions))
        (firstn 20 eleven_early_submissions) = true ->
      rd_source r = Some "reddit_api"
      /\ rd_total_posts_found r = Some (Z.min 10 (len eleven_early_submissions))
      /\ (10 < len eleven_early_submissions ->
          rd_total_posts_found r = Some 10
          /\ len (firstn 10 eleven_early_submissions) = 10))
     /\ (renders_all (sample_world (Returned eleven_early_submissions))
           (firstn 20 eleven_early_submissions) = false ->
         r = no_api /\ rd_total_posts_found r = None).
Proof.
  split; [reflexivity |].
  apply (total_posts_found_capped_at_10
           (sample_world (Returned eleven_early_submissions))
           "taylor swift" 100 200 eleven_early_submissions);
    try reflexivity.
  intros s Hs.
  apply repeat_spec in Hs.
  subst s; simpl; lia.
Defined.

(** C3, as stated, fails: when the search raises, the dict the adapter
    returns has no [error] key; it is the "no_api" dict. *)
Lemma reddit_error_counterexample :
  search (sample_world (Raised "boom")) uk_subreddits "taylor swift" = Raised "boom"
  /\ rd_error
       (fetch_reddit_mentions (sample_world (Raised "boom")) "taylor swift" 100 200)
     = None
  /\ rd_source
       (fetch_reddit_mentions (sample_world (Raised "boom")) "taylor swift" 100 200)
     = Some "no_api".
Proof.
  split; [reflexivity |].
  split; reflexivity.
Qed.

(** C3, amended: when the search call raises, the adapter catches the error
    and returns the "no_api" dict: count 0, no posts, [in_date_range] 0,
    and no [error] key. *)
Theorem reddit_search_error_gives_no_api :
  forall (w : reddit_world) (keyword : string) (start_ts end_ts : Z) (msg : string),
    search w uk_subreddits keyword = Raised msg ->
    fetch_reddit_mentions w keyword start_ts end_ts = no_api
    /\ rd_count (fetch_reddit_mentions w keyword start_ts end_ts) = 0
    /\ rd_posts (fetch_reddit_mentions w keyword start_ts end_ts) = []
    /\ rd_source (fetch_reddit_mentions w keyword start_ts end_ts) = Some "no_api"
    /\ rd_error (fetch_reddit_mentions w keyword start_ts end_ts) = None.
Proof.
  intros w keyword start_ts end_ts msg Hsearch.
  assert (H : fetch_reddit_mentions w keyword start_ts end_ts = no_api).
  { unfold fetch_reddit_mentions.
    rewrite Hsearch.
    destruct (env_truthy (REDDIT_CLIENT_ID w) && env_truthy (REDDIT_CLIENT_SECRET w)
              && praw w)%bool; reflexivity. }
  rewrite H.
  split; [reflexivity |].
  split; [reflexivity |].
  split; [reflexivity |].
  split; reflexivity.
Qed.

Lemma reddit_search_error_gives_no_api_witness :
  fetch_reddit_mentions (sample_world (Raised "boom")) "taylor swift" 100 200 = no_api
  /\ rd_count
       (fetch_reddit_mentions (sample_world (Raised "boom")) "taylor swift" 100 200) = 0
  /\ rd_posts
       (fetch_reddit_mentions (sample_world (Raised "boom")) "taylor swift" 100 200) = []
  /\ rd_source
       (fetch_reddit_mentions (sample_world (Raised "boom")) "taylor swift" 100 200)
     = Some "no_api"
  /\ rd_error
       (fetch_reddit_mentions (sample_world (Raised "boom")) "taylor swift" 100 200)
     = None.
Proof.
  apply (reddit_search_error_gives_no_api (sample_world (Raised "boom"))
           "taylor swift" 100 200 "boom").
  reflexivity.
Defined.

(** ** The count invariant *)

(** C7: in every result of the event-listing adapter and of the discussion
    adapter, [count] is the length of the returned list of items, and that
    list is made of the extracted candidates that score 90 or more. For the
    event-listing adapter the candidates are the events extracted from the
    page of the first URL that yields anything: those of the cards of the
    first selector that matches or, when no selector matches, those of the
    event links; [total_events_found] counts them; when no URL yields
    anything the result is the "No events found" dict. For the discussion
    adapter the candidates are the detailed posts of the fetched submissions
    within the date range; when there is no API, or an error was caught, the
    result is the "no_api" dict, with count 0 and no posts. *)
Theorem source_result_count_invariant :
  (forall (get : http) (keyword : string),
     let r := fetch_eventbrite_scrape get keyword in
     eb_count r = len (eb_events r)
     /\ ((r = no_events_found
          /\ Forall (fun url => yields_nothing (get url)) (eventbrite_urls keyword))
         \/ exists before url after status_code soup candidates,
              eventbrite_urls keyword = (before ++ url :: after)%list
              /\ Forall (fun u => yields_nothing (get u)) before
              /\ get url = Returned (status_code, soup)
              /\ is_error_status status_code = false
              /\ ((exists pre selector post,
                      selectors = (pre ++ selector :: post)%list
                      /\ Forall (fun s => select soup s = []) pre
                      /\ select soup selector <> []
                      /\ candidates
                         = events_of_cards keyword (select soup selector))
                  \/ (Forall (fun s => select soup s = []) selectors
                      /\ filter is_event_link (anchors soup) <> []
                      /\ candidates
                         = events_of_links keyword 0
                             (filter is_event_link (anchors soup))))
              /\ eb_events r
                 = filter (fun e => 90 <=? ev_relevance_score e) candidates
              /\ eb_count r
                 = len (filter (fun e => 90 <=? ev_relevance_score e) candidates)
              /\ eb_total_events_found r = Some (len candidates)))
  /\ (forall (w : reddit_world) (keyword : string) (start_ts end_ts : Z),
        let r := fetch_reddit_mentions w keyword start_ts end_ts in
        let candidates :=
          if (env_truthy (REDDIT_CLIENT_ID w)
              && env_truthy (REDDIT_CLIENT_SECRET w) && praw w)%bool
          then
            match search w uk_subreddits keyword with
            | Returned submissions =>
                if renders_all w (firstn 20 submissions)
                then
                  detailed_posts_of w keyword start_ts end_ts
                    (filter
                       (fun s => in_date_range start_ts end_ts (sub_created_utc s))
                       submissions)
                else None
            | Raised _ => None
            end
          else None in
        rd_count r = len (rd_posts r)
        /\ match candidates with
           | Some eligible =>
               rd_source r = Some "reddit_api"
               /\ rd_posts r
                  = filter (fun p => 90 <=? post_relevance_score p) eligible
               /\ rd_count r
                  = len (filter (fun p => 90 <=? post_relevance_score p) eligible)
           | None => r = no_api /\ rd_count r = 0 /\ rd_posts r = []
           end).
Proof.
  split.
  - intros get keyword r.
    subst r.
    unfold fetch_eventbrite_scrape.
    destruct (try_urls keyword get (eventbrite_urls keyword)) as [r |] eqn:Hurls.
    + destruct (try_urls_first keyword get _ r Hurls)
        as (before & url & after & status_code & soup
            & Hsplit & Hbefore & Hget & Hstatus & Horigin).
      destruct Horigin as [(pre & selector & post & Hsels & Hpre & Hne & ->)
                          | (Hnone & Hlinks & ->)].
      * split; [reflexivity |].
        right.
        exists before, url, after, status_code, soup,
          (events_of_cards keyword (select soup selector)).
        split; [exact Hsplit |].
        split; [exact Hbefore |].
        split; [exact Hget |].
        split; [exact Hstatus |].
        split; [left; exists pre, selector, post;
                split; [exact Hsels |];
                split; [exact Hpre |];
                split; [exact Hne | reflexivity] |].
        split; [reflexivity |].
        split; reflexivity.
      * split; [reflexivity |].
        right.
        exists before, url, after, status_code, soup,
          (events_of_links keyword 0 (filter is_event_link (anchors soup))).
        split; [exact Hsplit |].
        split; [exact Hbefore |].
        split; [exact Hget |].
        split; [exact Hstatus |].
        split; [right;
                split; [exact Hnone |];
                split; [exact Hlinks | reflexivity] |].
        split; [reflexivity |].
        split; reflexivity.
    + split; [reflexivity |].
      left.
      split; [reflexivity |].
      apply (try_urls_none keyword get (eventbrite_urls keyword)).
      exact Hurls.
  - intros w keyword start_ts end_ts r candidates.
    subst r candidates.
    unfold fetch_reddit_mentions.
    destruct (env_truthy (REDDIT_CLIENT_ID w)
              && env_truthy (REDDIT_CLIENT_SECRET w) && praw w)%bool;
      [| split; [reflexivity |]; split; [reflexivity |]; split; reflexivity].
    destruct (search w uk_subreddits keyword) as [submissions | msg];
      [| split; [reflexivity |]; split; [reflexivity |]; split; reflexivity].
    destruct (process_submissions w keyword start_ts end_ts submissions)
      as [result |] eqn:Hp.
    + destruct (process_submissions_Some w keyword start_ts end_ts submissions
                  result Hp)
        as (eligible & H20 & Hd & Hposts & Hcount & Hsource & _ & _).
      rewrite H20, Hd.
      split; [exact Hcount |].
      split; [exact Hsource |].
      split; [exact Hposts |].
      rewrite Hcount, Hposts; reflexivity.
    + split; [reflexivity |].
      apply process_submissions_None in Hp.
      destruct (renders_all w (firstn 20 submissions)); cbn [andb] in Hp.
      * apply detailed_posts_of_None with (keyword := keyword)
          (start_ts := start_ts) (end_ts := end_ts) in Hp.
        rewrite Hp.
        split; [reflexivity |].
        split; reflexivity.
      * split; [reflexivity |].
        split; reflexivity.
Qed.

(** ** The report *)

Lemma sources_successful_build_report (keyword : string) (start end_ : datetime)
  (c : calls) :
  let r := build_report keyword start end_ c in
  sources_successful (rep_search_metadata r)
  = ((if is_not_None (eventbrite_events (rep_summary r)) then ["eventbrite"] else [])
     ++ (if is_not_None (reddit_mentions (rep_summary r)) then ["reddit"] else [])
     ++ (if is_not_None (dd_google_trends (rep_detailed_data r))
         then ["google_trends"] else []))%list.
Proof.
  unfold build_report.
  destruct (eventbrite_block (eventbrite_call c)) as [eb_count eb_data].
  destruct (reddit_block (reddit_call c)) as [reddit_count reddit_data].
  cbn.
  destruct (is_not_None eb_count), (is_not_None reddit_count),
    (is_not_None (trends_block (trends_call c))); reflexivity.
Qed.

Lemma is_not_None_spec {A : Type} (o : option A) :
  is_not_None o = true <-> o <> None.
Proof.
  destruct o; simpl; split; intros H; try reflexivity; try discriminate.
  exfalso; apply H; reflexivity.
Qed.

(** C1, as stated, fails: a source whose fetch errored is not always
    excluded. In the run [sample_calls_all_failing] every request of the
    event-listing adapter raised and the Reddit search raised; each adapter
    caught its error and returned a dict with count 0, and both sources are
    listed as successful. *)
Lemma sources_successful_counterexample :
  search (sample_world (Raised "boom")) uk_subreddits "taylor swift" = Raised "boom"
  /\ reddit_call sample_calls_all_failing = Returned (IsDict no_api)
  /\ eventbrite_call sample_calls_all_failing = Returned (IsDict no_events_found)
  /\ sources_successful
       (rep_search_metadata
          (build_report "taylor swift" (mk_datetime 2024 5 1 0 0 0)
             (mk_datetime 2024 5 2 0 0 0) sample_calls_all_failing))
     = ["eventbrite"; "reddit"].
Proof.
  split; [reflexivity |].
  split; [reflexivity |].
  split; reflexivity.
Qed.

Lemma summary_of_build_report (keyword : string) (start end_ : datetime) (c : calls) :
  let r := build_report keyword start end_ c in
  eventbrite_events (rep_summary r) = fst (eventbrite_block (eventbrite_call c))
  /\ reddit_mentions (rep_summary r) = fst (reddit_block (reddit_call c))
  /\ dd_google_trends (rep_detailed_data r) = trends_block (trends_call c)
  /\ google_trends_score (rep_summary r)
     = match trends_block (trends_call c) with
       | Some d => get_max_score d
       | None => None
       end.
Proof.
  unfold build_report.
  destruct (eventbrite_block (eventbrite_call c)) as [eb_count eb_data].
  destruct (reddit_block (reddit_call c)) as [reddit_count reddit_data].
  cbn.
  split; [reflexivity |].
  split; [reflexivity |].
  split; reflexivity.
Qed.

(** Membership in a list built from three flags. *)
Lemma in_flagged_sources (b1 b2 b3 : bool) (s : string) :
  In s ((if b1 then ["eventbrite"] else [])
        ++ (if b2 then ["reddit"] else [])
        ++ (if b3 then ["google_trends"] else []))%list
  <-> (s = "eventbrite" /\ b1 = true)
      \/ (s = "reddit" /\ b2 = true)
      \/ (s = "google_trends" /\ b3 = true).
Proof.
  destruct b1, b2, b3; simpl; split; intros H;
    repeat match goal with
      | H : _ \/ _ |- _ => destruct H
      | H : _ /\ _ |- _ => destruct H
      | H : False |- _ => destruct H
      | H : false = true |- _ => discriminate H
      end;
    subst; auto 10.
Qed.

(** C1, amended: in a run whose discussion fetch and trend fetch return to
    [main], [sources_successful] contains exactly those of the three sources
    whose count or score in the summary is not [None]. A source with count
    zero is listed. A source whose value is [None] is not: an event-listing
    fetch that raised, and a trend fetch that returned [None]. *)
Theorem sources_successful_lists_non_None :
  forall (keyword : string) (start end_ : datetime) (c : calls),
    reddit_block_completes c = true ->
    trends_block_completes c = true ->
    let r := build_report keyword start end_ c in
    let listed := sources_successful (rep_search_metadata r) in
    (forall s, In s listed ->
       s = "eventbrite" \/ s = "reddit" \/ s = "google_trends")
    /\ (In "eventbrite" listed <-> eventbrite_events (rep_summary r) <> None)
    /\ (In "reddit" listed <-> reddit_mentions (rep_summary r) <> None)
    /\ (In "google_trends" listed <-> google_trends_score (rep_summary r) <> None)
    /\ (eventbrite_events (rep_summary r) = Some 0 -> In "eventbrite" listed)
    /\ (reddit_mentions (rep_summary r) = Some 0 -> In "reddit" listed)
    /\ (google_trends_score (rep_summary r) = Some 0 -> In "google_trends" listed)
    /\ (forall e, eventbrite_call c = Raised e ->
          eventbrite_events (rep_summary r) = None /\ ~ In "eventbrite" listed)
    /\ (trends_call c = Returned None ->
          google_trends_score (rep_summary r) = None
          /\ ~ In "google_trends" listed).
Proof.
  intros keyword start end_ c _ Htrends r listed.
  pose proof (sources_successful_build_report keyword start end_ c) as Hl.
  destruct (summary_of_build_report keyword start end_ c) as (Heb & Hrd & Hgt & Hsc).
  cbv zeta in Hl.
  fold r in Hl, Heb, Hrd, Hgt, Hsc.
  assert (Hscore : dd_google_trends (rep_detailed_data r) <> None
                   <-> google_trends_score (rep_summary r) <> None).
  { rewrite Hgt, Hsc.
    unfold trends_block_completes in Htrends.
    destruct (trends_call c) as [[[t | n] |] | e]; cbn [trends_block get_max_score];
      [| | | discriminate Htrends];
      split; intros H; first [discriminate | exfalso; apply H; reflexivity]. }
  assert (Hin : forall s,
             In s listed
             <-> (s = "eventbrite" /\ eventbrite_events (rep_summary r) <> None)
                 \/ (s = "reddit" /\ reddit_mentions (rep_summary r) <> None)
                 \/ (s = "google_trends"
                     /\ google_trends_score (rep_summary r) <> None)).
  { intros s.
    unfold listed.
    rewrite Hl, in_flagged_sources, !is_not_None_spec, Hscore.
    reflexivity. }
  assert (E1 : In "eventbrite" listed <-> eventbrite_events (rep_summary r) <> None).
  { rewrite Hin.
    split.
    - intros [[_ H] | [[H _] | [H _]]]; [exact H | discriminate H | discriminate H].
    - intros H; left; split; [reflexivity | exact H]. }
  assert (E2 : In "reddit" listed <-> reddit_mentions (rep_summary r) <> None).
  { rewrite Hin.
    split.
    - intros [[H _] | [[_ H] | [H _]]]; [discriminate H | exact H | discriminate H].
    - intros H; right; left; split; [reflexivity | exact H]. }
  assert (E3 : In "google_trends" listed
               <-> google_trends_score (rep_summary r) <> None).
  { rewrite Hin.
    split.
    - intros [[H _] | [[H _] | [_ H]]]; [discriminate H | discriminate H | exact H].
    - intros H; right; right; split; [reflexivity | exact H]. }
  split.
  { intros s Hs.
    apply Hin in Hs.
    destruct Hs as [[-> _] | [[-> _] | [-> _]]]; auto. }
  split; [exact E1 |].
  split; [exact E2 |].
  split; [exact E3 |].
  split.
  { intros H; apply E1; rewrite H; discriminate. }
  split.
  { intros H; apply E2; rewrite H; discriminate. }
  split.
  { intros H; apply E3; rewrite H; discriminate. }
  split.
  { intros e He.
    assert (Hnone : eventbrite_events (rep_summary r) = None)
      by (rewrite Heb, He; reflexivity).
    split; [exact Hnone |].
    intros Hlisted.
    apply E1 in Hlisted.
    apply Hlisted; exact Hnone. }
  intros Hreturned.
  assert (Hnone : google_trends_score (rep_summary r) = None)
    by (rewrite Hsc, Hreturned; reflexivity).
  split; [exact Hnone |].
  intros Hlisted.
  apply E3 in Hlisted.
  apply Hlisted; exact Hnone.
Qed.

Lemma sources_successful_lists_non_None_witness :
  let r :=
    build_report "taylor swift" (mk_datetime 2024 5 1 0 0 0)
      (mk_datetime 2024 5 2 0 0 0) sample_calls_all_failing in
  let listed := sources_successful (rep_search_metadata r) in
  listed = ["eventbrite"; "reddit"]
  /\ rep_summary r
     = {| eventbrite_events := Some 0;
          reddit_mentions := Some 0;
          google_trends_score := None |}
  /\ (forall s, In s listed ->
        s = "eventbrite" \/ s = "reddit" \/ s = "google_trends")
  /\ (In "eventbrite" listed <-> eventbrite_events (rep_summary r) <> None)
  /\ (In "reddit" listed <-> reddit_mentions (rep_summary r) <> None)
  /\ (In "google_trends" listed <-> google_trends_score (rep_summary r) <> None)
  /\ (eventbrite_events (rep_summary r) = Some 0 -> In "eventbrite" listed)
  /\ (reddit_mentions (rep_summary r) = Some 0 -> In "reddit" listed)
  /\ (google_trends_score (rep_summary r) = Some 0 -> In "google_trends" listed)
  /\ (forall e, eventbrite_call sample_calls_all_failing = Raised e ->
        eventbrite_events (rep_summary r) = None /\ ~ In "eventbrite" listed)
  /\ (trends_call sample_calls_all_failing = Returned None ->
        google_trends_score (rep_summary r) = None
        /\ ~ In "google_trends" listed).
Proof.
  split; [reflexivity |].
  split; [reflexivity |].
  apply (sources_successful_lists_non_None "taylor swift"
           (mk_datetime 2024 5 1 0 0 0) (mk_datetime 2024 5 2 0 0 0)
           sample_calls_all_failing);
    reflexivity.
Defined.

(** * Further properties *)

(** ** The scorer *)

Lemma len_cons {A : Type} (x : A) (l : list A) : len (x :: l) = 1 + len l.
Proof. unfold len; simpl List.length; lia. Qed.

Lemma len_nonneg {A : Type} (l : list A) : 0 <= len l.
Proof. unfold len; lia. Qed.

(** The word loop adds 35 for each word of the keyword found in the title. *)
Lemma word_loop_counts (title_lower : string) (words : list string) :
  fold_left (add_word_points title_lower) words 0
  = 35 * len (filter (fun word => PyStr.contains word title_lower) words).
Proof.
  induction words as [|word rest IH]; cbn [fold_left filter].
  - reflexivity.
  - rewrite word_loop_shift, IH.
    unfold add_word_points.
    destruct (PyStr.contains word title_lower).
    + rewrite len_cons; lia.
    + lia.
Qed.

(** X1: a title passes the threshold of 90 exactly when the whole keyword
    occurs in it, or three or more words of the keyword do, or exactly two
    words of the keyword and an event term do. *)
Theorem passes_threshold_iff :
  forall title keyword : string,
    let title_lower := PyStr.lower title in
    let keyword_lower := PyStr.lower keyword in
    let matching :=
      len (filter (fun word => PyStr.contains word title_lower)
             (PyStr.split keyword_lower)) in
    passes_threshold (calculate_relevance_score title keyword) = true
    <-> PyStr.contains keyword_lower title_lower = true
        \/ 3 <= matching
        \/ (matching = 2
            /\ existsb (fun term => PyStr.contains term title_lower) event_terms
               = true).
Proof.
  intros title keyword title_lower keyword_lower matching.
  unfold passes_threshold, relevance_threshold, calculate_relevance_score, clamp.
  rewrite Z.leb_le, score_before_clamp_sum.
  unfold exact_match_points, word_match_points, event_bonus_points.
  rewrite word_loop_counts.
  fold title_lower keyword_lower matching.
  pose proof (len_nonneg
                (filter (fun word => PyStr.contains word title_lower)
                   (PyStr.split keyword_lower))) as Hn.
  fold matching in Hn.
  destruct (PyStr.contains keyword_lower title_lower);
    destruct (existsb (fun term => PyStr.contains term title_lower) event_terms);
    split; intros H.
  all: try (left; reflexivity).
  all: try lia.
  all: try (right; assert (3 <= matching \/ matching = 2) as [H3 | H2] by lia;
            [left; exact H3 | right; split; [exact H2 | reflexivity]]).
  all: try (right; left; lia).
  all: destruct H as [H | [H | [H H']]];
    first [discriminate H | discriminate H' | lia].
Qed.

(** X2: for a keyword that is one word, the score is 100 when the keyword
    occurs in the title and at most 20 otherwise, so the title passes the
    threshold exactly when the keyword occurs in it. *)
Theorem single_word_keyword_score :
  forall title keyword : string,
    PyStr.split (PyStr.lower keyword) = [PyStr.lower keyword] ->
    (PyStr.contains (PyStr.lower keyword) (PyStr.lower title) = true ->
     calculate_relevance_score title keyword = 100)
    /\ (PyStr.contains (PyStr.lower keyword) (PyStr.lower title) = false ->
        calculate_relevance_score title keyword
        = event_bonus_points (PyStr.lower title)
        /\ calculate_relevance_score title keyword <= 20)
    /\ (passes_threshold (calculate_relevance_score title keyword) = true
        <-> PyStr.contains (PyStr.lower keyword) (PyStr.lower title) = true).
Proof.
  intros title keyword Hone.
  unfold passes_threshold, relevance_threshold, calculate_relevance_score, clamp.
  rewrite Z.leb_le, score_before_clamp_sum.
  unfold exact_match_points, word_match_points.
  rewrite Hone.
  cbn [fold_left].
  unfold add_word_points.
  destruct (PyStr.contains (PyStr.lower keyword) (PyStr.lower title));
    destruct (event_bonus_points_cases (PyStr.lower title)) as [-> | ->].
  all: split; [intros H; first [discriminate H | reflexivity] |].
  all: split;
    [intros H; first [discriminate H | split; [reflexivity | lia]] |].
  all: split; intros H; first [reflexivity | discriminate H | lia].
Qed.

Lemma single_word_keyword_score_witness :
  PyStr.split (PyStr.lower "Glastonbury") = [PyStr.lower "Glastonbury"]
  /\ (PyStr.contains (PyStr.lower "Glastonbury")
        (PyStr.lower "Road to GLASTONBURY 2024") = true ->
      calculate_relevance_score "Road to GLASTONBURY 2024" "Glastonbury" = 100)
  /\ (PyStr.contains (PyStr.lower "Glastonbury")
        (PyStr.lower "Road to GLASTONBURY 2024") = false ->
      calculate_relevance_score "Road to GLASTONBURY 2024" "Glastonbury"
      = event_bonus_points (PyStr.lower "Road to GLASTONBURY 2024")
      /\ calculate_relevance_score "Road to GLASTONBURY 2024" "Glastonbury" <= 20)
  /\ (passes_threshold
        (calculate_relevance_score "Road to GLASTONBURY 2024" "Glastonbury") = true
      <-> PyStr.contains (PyStr.lower "Glastonbury")
            (PyStr.lower "Road to GLASTONBURY 2024") = true).
Proof.
  split; [reflexivity |].
  apply (single_word_keyword_score "Road to GLASTONBURY 2024" "Glastonbury").
  reflexivity.
Defined.

Lemma lower_char_idempotent (c : ascii) :
  PyStr.lower_char (PyStr.lower_char c) = PyStr.lower_char c.
Proof. destruct c as [[] [] [] [] [] [] [] []]; reflexivity. Qed.

Lemma lower_idempotent (s : string) : PyStr.lower (PyStr.lower s) = PyStr.lower s.
Proof.
  unfold PyStr.lower.
  induction s as [|c t IH]; cbn [PyStr.map_chars].
  - reflexivity.
  - rewrite lower_char_idempotent, IH.
    reflexivity.
Qed.

(** X3: the score does not depend on the case of the title or of the
    keyword: lowercasing either leaves it unchanged. *)
Theorem score_ignores_case :
  forall title keyword : string,
    calculate_relevance_score (PyStr.lower title) keyword
    = calculate_relevance_score title keyword
    /\ calculate_relevance_score title (PyStr.lower keyword)
       = calculate_relevance_score title keyword.
Proof.
  intros title keyword.
  unfold calculate_relevance_score, score_before_clamp.
  rewrite !lower_idempotent.
  split; reflexivity.
Qed.

(** ** Output file name *)

Lemma all_chars_app (p : ascii -> bool) (a b : string) :
  all_chars p (a ++ b) = (all_chars p a && all_chars p b)%bool.
Proof.
  unfold all_chars.
  induction a as [|c t IH]; simpl.
  - reflexivity.
  - rewrite IH, andb_assoc; reflexivity.
Qed.

Lemma all_chars_filter (p : ascii -> bool) (s : string) :
  all_chars p (PyStr.filter_chars p s) = true.
Proof.
  unfold all_chars.
  induction s as [|c t IH]; simpl.
  - reflexivity.
  - destruct (p c) eqn:E; simpl; [rewrite E |]; exact IH.
Qed.

Lemma all_chars_rstrip (p : ascii -> bool) (s : string) :
  all_chars p s = true -> all_chars p (PyStr.rstrip s) = true.
Proof.
  unfold all_chars.
  induction s as [|c t IH]; simpl; intros H.
  - reflexivity.
  - apply andb_true_iff in H.
    destruct H as [Hc Ht].
    destruct (PyStr.isspace c && PyStr.is_empty (PyStr.rstrip t))%bool; simpl.
    + reflexivity.
    + rewrite Hc; exact (IH Ht).
Qed.

Lemma all_chars_map (p q : ascii -> bool) (f : ascii -> ascii) (s : string) :
  (forall c, p c = true -> q (f c) = true) ->
  all_chars p s = true -> all_chars q (PyStr.map_chars f s) = true.
Proof.
  intros Hf.
  unfold all_chars.
  induction s as [|c t IH]; simpl; intros H.
  - reflexivity.
  - apply andb_true_iff in H.
    destruct H as [Hc Ht].
    rewrite (Hf c Hc); exact (IH Ht).
Qed.

(** A kept character, with the space made an underscore, and lowercased. *)
Lemma kept_char_safe (c : ascii) :
  keeps_in_filename c = true ->
  filename_safe (PyStr.lower_char (if Ascii.eqb c " " then "_"%char else c)) = true.
Proof.
  destruct c as [[] [] [] [] [] [] [] []]; intros H;
    first [reflexivity | discriminate H].
Qed.

Lemma digit_char_safe (d : Z) : 0 <= d <= 9 -> filename_safe (digit_char d) = true.
Proof.
  intros H.
  assert (d = 0 \/ d = 1 \/ d = 2 \/ d = 3 \/ d = 4 \/ d = 5 \/ d = 6 \/ d = 7
          \/ d = 8 \/ d = 9) as Hd by lia.
  repeat destruct Hd as [-> | Hd]; try reflexivity.
  subst d; reflexivity.
Qed.

Lemma pad2_safe (n : Z) : all_chars filename_safe (pad2 n) = true.
Proof.
  unfold pad2, all_chars.
  cbn [list_ascii_of_string forallb].
  rewrite !digit_char_safe; [reflexivity | |].
  - pose proof (Z.mod_pos_bound n 10); lia.
  - pose proof (Z.mod_pos_bound (n / 10) 10); lia.
Qed.

Lemma pad4_safe (n : Z) : all_chars filename_safe (pad4 n) = true.
Proof.
  unfold pad4.
  rewrite all_chars_app, !pad2_safe.
  reflexivity.
Qed.

Lemma year_digits_safe (y : Z) : all_chars filename_safe (year_digits y) = true.
Proof.
  unfold year_digits, pad1.
  destruct (y <? 10); [| destruct (y <? 100); [| destruct (y <? 1000)]].
  - cbn [all_chars forallb list_ascii_of_string].
    rewrite digit_char_safe; [reflexivity |].
    Z.div_mod_to_equations; lia.
  - apply pad2_safe.
  - rewrite all_chars_app, pad2_safe.
    cbn [all_chars forallb list_ascii_of_string].
    rewrite digit_char_safe; [reflexivity |].
    Z.div_mod_to_equations; lia.
  - apply pad4_safe.
Qed.

(** The cleaned keyword is made of safe characters. *)
Lemma search_name_safe (keyword : string) :
  all_chars filename_safe
    (PyStr.lower
       (PyStr.replace_char " " "_"
          (PyStr.rstrip (PyStr.filter_chars keeps_in_filename keyword))))
  = true.
Proof.
  unfold PyStr.lower, PyStr.replace_char.
  apply (all_chars_map (fun c => filename_safe (PyStr.lower_char c))
           filename_safe PyStr.lower_char).
  - intros c Hc; exact Hc.
  - apply (all_chars_map keeps_in_filename
             (fun c => filename_safe (PyStr.lower_char c))).
    + exact kept_char_safe.
    + apply all_chars_rstrip, all_chars_filter.
Qed.

(** X4: whatever the keyword and the time, the generated file name is made
    of lowercase letters, digits, underscores, hyphens and dots only: it has
    no space, no upper-case letter and no path separator. *)
Theorem create_output_filename_safe :
  forall (keyword : string) (current_time : datetime),
    all_chars filename_safe (create_output_filename keyword current_time) = true.
Proof.
  intros keyword current_time.
  unfold create_output_filename, strftime_compact.
  rewrite !all_chars_app, search_name_safe, year_digits_safe, !pad2_safe.
  reflexivity.
Qed.

(** ** Discussion adapter *)

Lemma clamp_range (score : Z) : 0 <= clamp score <= 100.
Proof. unfold clamp; lia. Qed.

Lemma len_filter_le {A : Type} (p : A -> bool) (l : list A) :
  len (filter p l) <= len l.
Proof.
  unfold len.
  pose proof (filter_length_le p l).
  lia.
Qed.

(** X5: every post the discussion adapter returns was created within
    [[start_ts, end_ts]], is flagged as in range, and has a relevance score
    between 90 and 100. *)
Theorem reddit_posts_in_range_and_relevant :
  forall (w : reddit_world) (keyword : string) (start_ts end_ts : Z),
    Forall
      (fun p =>
         start_ts <= post_created_utc p <= end_ts
         /\ post_in_date_range p = true
         /\ 90 <= post_relevance_score p <= 100)
      (rd_posts (fetch_reddit_mentions w keyword start_ts end_ts)).
Proof.
  intros w keyword start_ts end_ts.
  unfold fetch_reddit_mentions.
  destruct (env_truthy (REDDIT_CLIENT_ID w)
            && env_truthy (REDDIT_CLIENT_SECRET w) && praw w)%bool;
    [| apply Forall_nil].
  destruct (search w uk_subreddits keyword) as [submissions | msg];
    [| apply Forall_nil].
  destruct (process_submissions w keyword start_ts end_ts submissions)
    as [result |] eqn:Hp; [| apply Forall_nil].
  destruct (process_submissions_Some w keyword start_ts end_ts submissions result Hp)
    as (eligible & _ & Hd & Hposts & _).
  rewrite Hposts.
  apply Forall_forall.
  intros p Hin.
  apply filter_In in Hin.
  destruct Hin as [Hin Hscore].
  destruct (detailed_posts_of_In w keyword start_ts end_ts _ eligible p Hd Hin)
    as (sub & Hsub & Hpost).
  apply filter_In in Hsub.
  destruct Hsub as [_ Hrange].
  apply detailed_post_fields in Hpost.
  destruct Hpost as (_ & Hcreated & Hflag & Hrel).
  rewrite Hcreated, Hflag.
  split; [apply in_date_range_spec; exact Hrange |].
  split; [exact Hrange |].
  apply Z.leb_le in Hscore.
  pose proof (clamp_range (score_before_clamp (sub_title sub) keyword)) as Hc.
  rewrite Hrel in *.
  unfold calculate_relevance_score in *.
  lia.
Qed.

(** X6: when at least one fetched submission is within the date range and
    the creation times of the first twenty submissions and of the in-range
    ones render, [total_posts_found] and [posts_in_date_range] are both the
    number of in-range submissions, which is at least the count and at most
    the number of submissions fetched. When one of those creation times
    does not render, the exception is caught and the adapter returns its
    "no_api" dict. *)
Theorem total_posts_found_is_in_range_count :
  forall (w : reddit_world) (keyword : string) (start_ts end_ts : Z)
         (submissions : list submission),
    env_truthy (REDDIT_CLIENT_ID w) = true ->
    env_truthy (REDDIT_CLIENT_SECRET w) = true ->
    praw w = true ->
    search w uk_subreddits keyword = Returned submissions ->
    (exists s, In s submissions /\ start_ts <= sub_created_utc s <= end_ts) ->
    let r := fetch_reddit_mentions w keyword start_ts end_ts in
    let in_range :=
      filter (fun s => in_date_range start_ts end_ts (sub_created_utc s))
        submissions in
    let n := len in_range in
    ((renders_all w (firstn 20 submissions) && renders_all w in_range)%bool = true ->
     rd_total_posts_found r = Some n
     /\ rd_posts_in_date_range r = Some n
     /\ rd_in_date_range r = Some (rd_count r)
     /\ rd_count r <= n <= len submissions
     /\ 1 <= n)
    /\ ((renders_all w (firstn 20 submissions) && renders_all w in_range)%bool = false ->
        r = no_api).
Proof.
  intros w keyword start_ts end_ts submissions Hid Hsecret Hpraw Hsearch
    (s & Hin & Hrange) r in_range n.
  assert (Hs : In s in_range)
    by (apply filter_In; split; [exact Hin | apply in_date_range_spec; exact Hrange]).
  assert (Hn : 1 <= n).
  { unfold n.
    destruct in_range as [|s0 rest]; [destruct Hs |].
    rewrite len_cons.
    pose proof (len_nonneg rest).
    lia. }
  assert (Hle : n <= len submissions) by apply len_filter_le.
  subst r.
  rewrite (fetch_reddit_mentions_searched w keyword start_ts end_ts submissions
             Hid Hsecret Hpraw Hsearch).
  split.
  - intros Hrenders.
    apply andb_true_iff in Hrenders.
    destruct Hrenders as [H20 Hrange_renders].
    rewrite process_submissions_cases.
    cbv zeta.
    fold in_range.
    rewrite H20.
    destruct (detailed_posts_of w keyword start_ts end_ts in_range)
      as [eligible |] eqn:Hd.
    + assert (Hlen : len eligible = n)
        by (apply (detailed_posts_of_len w keyword start_ts end_ts); exact Hd).
      fold n.
      destruct in_range as [|s0 rest]; [destruct Hs |].
      cbn [rd_total_posts_found rd_posts_in_date_range rd_in_date_range rd_count].
      split; [reflexivity |].
      split; [reflexivity |].
      split; [reflexivity |].
      split; [| exact Hn].
      split; [| exact Hle].
      rewrite <- Hlen; apply len_filter_le.
    + apply detailed_posts_of_None in Hd.
      rewrite Hd in Hrange_renders; discriminate Hrange_renders.
  - intros Hfails.
    unfold in_range in Hfails.
    apply (process_submissions_None w keyword start_ts end_ts submissions) in Hfails.
    rewrite Hfails.
    reflexivity.
Qed.

Lemma total_posts_found_is_in_range_count_witness :
  let submissions :=
    [sample_submission "Taylor Swift tour" 50;
     sample_submission "Taylor Swift in London" 150;
     sample_submission "Quiz night" 160] in
  let w := sample_world (Returned submissions) in
  let r := fetch_reddit_mentions w "taylor swift" 100 200 in
  let in_range :=
    filter (fun s => in_date_range 100 200 (sub_created_utc s)) submissions in
  let n := len in_range in
  n = 2
  /\ rd_count r = 1
  /\ ((renders_all w (firstn 20 submissions) && renders_all w in_range)%bool = true ->
      rd_total_posts_found r = Some n
      /\ rd_posts_in_date_range r = Some n
      /\ rd_in_date_range r = Some (rd_count r)
      /\ rd_count r <= n <= len submissions
      /\ 1 <= n)
  /\ ((renders_all w (firstn 20 submissions) && renders_all w in_range)%bool = false ->
      r = no_api).
Proof.
  split; [reflexivity |].
  split; [reflexivity |].
  apply (total_posts_found_is_in_range_count
           (sample_world
              (Returned [sample_submission "Taylor Swift tour" 50;
                         sample_submission "Taylor Swift in London" 150;
                         sample_submission "Quiz night" 160]))
           "taylor swift" 100 200
           [sample_submission "Taylor Swift tour" 50;
            sample_submission "Taylor Swift in London" 150;
            sample_submission "Quiz night" 160]);
    try reflexivity.
  exists (sample_submission "Taylor Swift in London" 150).
  split; [right; left; reflexivity | simpl; lia].
Defined.

(** X7: when [end_ts] is before [start_ts] no submission can be in range,
    and the adapter returns count 0 and no posts whatever it fetched. *)
Theorem reversed_range_gives_empty_result :
  forall (w : reddit_world) (keyword : string) (start_ts end_ts : Z),
    end_ts < start_ts ->
    rd_count (fetch_reddit_mentions w keyword start_ts end_ts) = 0
    /\ rd_posts (fetch_reddit_mentions w keyword start_ts end_ts) = [].
Proof.
  intros w keyword start_ts end_ts Hrev.
  unfold fetch_reddit_mentions.
  destruct (env_truthy (REDDIT_CLIENT_ID w)
            && env_truthy (REDDIT_CLIENT_SECRET w) && praw w)%bool;
    [| split; reflexivity].
  destruct (search w uk_subreddits keyword) as [submissions | msg];
    [| split; reflexivity].
  rewrite (process_submissions_none_in_range w keyword start_ts end_ts submissions).
  - destruct (renders_all w (firstn 20 submissions)); split; reflexivity.
  - apply none_in_range.
    intros s _ Hs.
    lia.
Qed.

Lemma reversed_range_gives_empty_result_witness :
  rd_count
    (fetch_reddit_mentions
       (sample_world (Returned [sample_submission "Taylor Swift tour" 150]))
       "taylor swift" 200 100) = 0
  /\ rd_posts
       (fetch_reddit_mentions
          (sample_world (Returned [sample_submission "Taylor Swift tour" 150]))
          "taylor swift" 200 100) = [].
Proof.
  apply (reversed_range_gives_empty_result
           (sample_world (Returned [sample_submission "Taylor Swift tour" 150]))
           "taylor swift" 200 100).
  lia.
Defined.

(** X8: the result is tagged "reddit_api" exactly when both credentials are
    set and not empty, [praw] is available, the search returned, and the
    creation times of the first twenty submissions and of the in-range ones
    render; in every other case, a caught exception included, the adapter
    returns the "no_api" dict. No result of the adapter has an [error] key,
    and [in_date_range] always equals [count]. *)
Theorem reddit_source_tag :
  forall (w : reddit_world) (keyword : string) (start_ts end_ts : Z),
    let r := fetch_reddit_mentions w keyword start_ts end_ts in
    let configured :=
      (env_truthy (REDDIT_CLIENT_ID w) && env_truthy (REDDIT_CLIENT_SECRET w)
       && praw w)%bool in
    (rd_source r = Some "reddit_api"
     <-> configured = true
         /\ exists submissions,
              search w uk_subreddits keyword = Returned submissions
              /\ renders_all w (firstn 20 submissions) = true
              /\ renders_all w
                   (filter
                      (fun s => in_date_range start_ts end_ts (sub_created_utc s))
                      submissions) = true)
    /\ (rd_source r <> Some "reddit_api" -> r = no_api)
    /\ rd_error r = None
    /\ rd_in_date_range r = Some (rd_count r).
Proof.
  intros w keyword start_ts end_ts r configured.
  subst r configured.
  unfold fetch_reddit_mentions.
  destruct (env_truthy (REDDIT_CLIENT_ID w)
            && env_truthy (REDDIT_CLIENT_SECRET w) && praw w)%bool.
  - destruct (search w uk_subreddits keyword) as [submissions | msg].
    + destruct (process_submissions w keyword start_ts end_ts submissions)
        as [result |] eqn:Hp.
      * destruct (process_submissions_Some w keyword start_ts end_ts submissions
                    result Hp)
          as (eligible & H20 & Hd & _ & _ & Hsrc & Herr & Hin).
        assert (Hrange : renders_all w
                           (filter
                              (fun s => in_date_range start_ts end_ts
                                          (sub_created_utc s))
                              submissions) = true).
        { destruct (renders_all w
                      (filter
                         (fun s => in_date_range start_ts end_ts (sub_created_utc s))
                         submissions)) eqn:E; [reflexivity |].
          apply detailed_posts_of_None with (keyword := keyword)
            (start_ts := start_ts) (end_ts := end_ts) in E.
          rewrite E in Hd; discriminate Hd. }
        split.
        { split; [| intros _; exact Hsrc].
          intros _.
          split; [reflexivity |].
          exists submissions.
          split; [reflexivity |].
          split; [exact H20 | exact Hrange]. }
        split; [intros H; exfalso; apply H; exact Hsrc |].
        split; [exact Herr | exact Hin].
      * apply process_submissions_None in Hp.
        split.
        { split; [intros H; discriminate H |].
          intros [_ (submissions' & Hs & H20 & Hrange)].
          injection Hs as <-.
          rewrite H20, Hrange in Hp.
          discriminate Hp. }
        split; [intros _; reflexivity |].
        split; reflexivity.
    + split.
      * split; [intros H; discriminate H
               | intros [_ (submissions & H & _)]; discriminate H].
      * split; [intros _; reflexivity |].
        split; reflexivity.
  - split.
    + split; [intros H; discriminate H | intros [H _]; discriminate H].
    + split; [intros _; reflexivity |].
      split; reflexivity.
Qed.

(** ** Event-listing adapter *)

Lemma events_of_cards_len (keyword : string) (cards : list card) :
  len (events_of_cards keyword cards) <= len cards.
Proof.
  unfold len in *.
  induction cards as [|[c | msg] rest IH]; cbn [events_of_cards List.length]; lia.
Qed.

Lemma events_of_links_len (keyword : string) (links : list anchor) :
  forall k, len (events_of_links keyword k links) = len links.
Proof.
  induction links as [|a rest IH]; intros k; cbn [events_of_links].
  - reflexivity.
  - rewrite !len_cons, IH; reflexivity.
Qed.

(** X9: when the result names a selector, that selector is the first of the
    priority list that matches anything on the page of the first URL that
    answered without an error status; the events are read from its cards
    alone, so [total_events_found] is at most the number of those cards. *)
Theorem eventbrite_selector_priority :
  forall (get : http) (keyword selector : string),
    eb_selector_used (fetch_eventbrite_scrape get keyword) = Some selector ->
    exists url status_code soup pre post,
      In url (eventbrite_urls keyword)
      /\ get url = Returned (status_code, soup)
      /\ is_error_status status_code = false
      /\ selectors = (pre ++ selector :: post)%list
      /\ Forall (fun s => select soup s = []) pre
      /\ select soup selector <> []
      /\ fetch_eventbrite_scrape get keyword
         = result_of_cards selector (events_of_cards keyword (select soup selector))
      /\ eb_total_events_found (fetch_eventbrite_scrape get keyword)
         = Some (len (events_of_cards keyword (select soup selector)))
      /\ len (events_of_cards keyword (select soup selector))
         <= len (select soup selector).
Proof.
  intros get keyword selector.
  unfold fetch_eventbrite_scrape.
  destruct (try_urls keyword get (eventbrite_urls keyword)) as [r |] eqn:Hurls;
    [| intros H; discriminate H].
  intros Hused.
  destruct (try_urls_origin keyword get _ r Hurls)
    as (url & status_code & soup & Hin & Hget & Hstatus & Horigin).
  destruct Horigin as [(pre & sel & post & Hsels & Hpre & Hne & Hr)
                      | (_ & _ & Hr)].
  - subst r.
    cbn [result_of_cards eb_selector_used] in Hused.
    injection Hused as ->.
    exists url, status_code, soup, pre, post.
    split; [exact Hin |].
    split; [exact Hget |].
    split; [exact Hstatus |].
    split; [exact Hsels |].
    split; [exact Hpre |].
    split; [exact Hne |].
    split; [reflexivity |].
    split; [reflexivity | apply events_of_cards_len].
  - subst r.
    discriminate Hused.
Qed.

Lemma eventbrite_selector_priority_witness :
  exists url status_code soup pre post,
    In url (eventbrite_urls "taylor swift")
    /\ (fun _ => Returned (200, sample_page)) url = Returned (status_code, soup)
    /\ is_error_status status_code = false
    /\ selectors = (pre ++ ".event-card" :: post)%list
    /\ Forall (fun s => select soup s = []) pre
    /\ select soup ".event-card" <> []
    /\ fetch_eventbrite_scrape (fun _ => Returned (200, sample_page)) "taylor swift"
       = result_of_cards ".event-card"
           (events_of_cards "taylor swift" (select soup ".event-card"))
    /\ eb_total_events_found
         (fetch_eventbrite_scrape (fun _ => Returned (200, sample_page))
            "taylor swift")
       = Some (len (events_of_cards "taylor swift" (select soup ".event-card")))
    /\ len (events_of_cards "taylor swift" (select soup ".event-card"))
       <= len (select soup ".event-card").
Proof.
  apply (eventbrite_selector_priority (fun _ => Returned (200, sample_page))
           "taylor swift" ".event-card").
  reflexivity.
Defined.

(** X10: a result of the event-listing adapter either is the "No events
    found" dict, with count 0 and no events, or has no [error] key and a
    [total_events_found] that the count does not exceed. *)
Theorem eventbrite_count_at_most_total :
  forall (get : http) (keyword : string),
    let r := fetch_eventbrite_scrape get keyword in
    (r = no_events_found /\ eb_error r = Some "No events found")
    \/ (eb_error r = None
        /\ eb_relevance_threshold r = Some 90
        /\ exists total,
             eb_total_events_found r = Some total /\ 0 <= eb_count r <= total).
Proof.
  intros get keyword r.
  subst r.
  unfold fetch_eventbrite_scrape.
  destruct (try_urls keyword get (eventbrite_urls keyword)) as [r |] eqn:Hurls.
  - right.
    apply try_urls_shape in Hurls.
    destruct Hurls as [(selector & events & ->) | (events & ->)];
      (split; [reflexivity |]; split; [reflexivity |]; exists (len events);
       split; [reflexivity |];
       cbn [result_of_cards result_of_links eb_count];
       split; [apply len_nonneg | apply len_filter_le]).
  - left; split; reflexivity.
Qed.

Lemma take_length (n : nat) (s : string) :
  (String.length (PyStr.take n s) <= n)%nat.
Proof.
  unfold PyStr.take.
  revert s.
  induction n as [|n IH]; intros [|c t]; simpl; try apply Nat.le_0_l.
  apply le_n_S, IH.
Qed.

Lemma event_of_card_bounded (keyword : string) (c : card_fields) :
  event_fields_bounded (event_of_card keyword c).
Proof.
  unfold event_fields_bounded, event_of_card.
  cbn [ev_title ev_date_text ev_location ev_link ev_source].
  split; [apply take_length |].
  split; [apply take_length |].
  split; [apply take_length |].
  split; [| left; reflexivity].
  destruct (text_or_empty (first_href c)) as [|a link] eqn:E.
  - left; reflexivity.
  - right.
    cbn [PyStr.truthy PyStr.is_empty negb andb].
    destruct (PyStr.startswith (String a link) "http") eqn:Ehttp.
    + exact Ehttp.
    + reflexivity.
Qed.

Lemma event_of_link_bounded (keyword : string) (k : nat) (a : anchor) :
  event_fields_bounded (event_of_link keyword k a).
Proof.
  unfold event_fields_bounded, event_of_link.
  cbn [ev_title ev_date_text ev_location ev_link ev_source].
  split; [apply take_length |].
  split; [apply Nat.le_0_l |].
  split; [apply Nat.le_0_l |].
  split; [| right; reflexivity].
  right.
  destruct (PyStr.startswith (text_or_empty (a_href a)) "http") eqn:Ehttp.
  - exact Ehttp.
  - reflexivity.
Qed.

Lemma events_of_cards_bounded (keyword : string) (cards : list card) :
  Forall event_fields_bounded (events_of_cards keyword cards).
Proof.
  induction cards as [|[c | msg] rest IH]; cbn [events_of_cards].
  - apply Forall_nil.
  - apply Forall_cons; [apply event_of_card_bounded | exact IH].
  - exact IH.
Qed.

Lemma events_of_links_bounded (keyword : string) (links : list anchor) :
  forall k, Forall event_fields_bounded (events_of_links keyword k links).
Proof.
  induction links as [|a rest IH]; intros k; cbn [events_of_links].
  - apply Forall_nil.
  - apply Forall_cons; [apply event_of_link_bounded | apply IH].
Qed.

Lemma high_relevance_bounded (events : list event) :
  Forall event_fields_bounded events ->
  Forall (fun e => event_fields_bounded e /\ 90 <= ev_relevance_score e)
    (high_relevance events).
Proof.
  intros H.
  apply Forall_forall.
  intros e He.
  apply filter_In in He.
  destruct He as [Hin Hscore].
  split.
  - rewrite Forall_forall in H; exact (H e Hin).
  - apply Z.leb_le in Hscore; exact Hscore.
Qed.

(** X11: every event the event-listing adapter returns scores 90 or more,
    has a title of at most 200 characters and a date text and a location of
    at most 100, a link that is empty or starts with "http", and one of the
    two source tags. *)
Theorem eventbrite_events_bounded :
  forall (get : http) (keyword : string),
    Forall (fun e => event_fields_bounded e /\ 90 <= ev_relevance_score e)
      (eb_events (fetch_eventbrite_scrape get keyword)).
Proof.
  intros get keyword.
  unfold fetch_eventbrite_scrape.
  destruct (try_urls keyword get (eventbrite_urls keyword)) as [r |] eqn:Hurls;
    [| apply Forall_nil].
  destruct (try_urls_origin keyword get _ r Hurls)
    as (url & status_code & soup & _ & _ & _ & Horigin).
  destruct Horigin as [(pre & sel & post & _ & _ & _ & ->) | (_ & _ & ->)].
  - apply high_relevance_bounded, events_of_cards_bounded.
  - apply high_relevance_bounded, events_of_links_bounded.
Qed.

(** X12: the adapter returns its "No events found" dict exactly when the
    request of each of the two URLs yields nothing: it raises, or answers
    with a 4xx or 5xx status (a 404 included), or gives a page with no
    element for any selector and no event link. *)
Theorem eventbrite_no_events_found_iff :
  forall (get : http) (keyword : string),
    fetch_eventbrite_scrape get keyword = no_events_found
    <-> Forall (fun url => yields_nothing (get url)) (eventbrite_urls keyword).
Proof.
  intros get keyword.
  rewrite <- (try_urls_none keyword get (eventbrite_urls keyword)).
  unfold fetch_eventbrite_scrape.
  destruct (try_urls keyword get (eventbrite_urls keyword)) as [r |] eqn:Hurls.
  - split; [| intros H; discriminate H].
    intros Hr.
    apply try_urls_shape in Hurls.
    destruct Hurls as [(selector & events & ->) | (events & ->)];
      discriminate Hr.
  - split; reflexivity.
Qed.

(** ** Search-trend adapter *)

(** X13: the trend adapter returns [None] exactly when [pytrends] is not
    available, or the query raises, or the frame it returns has no rows. *)
Theorem trends_none_iff :
  forall (w : trends_world) (keyword : string) (start_date end_date : datetime),
    let query :=
      interest_over_time w keyword
        (strftime_date start_date ++ " " ++ strftime_date end_date) in
    fetch_google_trends_score w keyword start_date end_date = None
    <-> TrendReq w = false
        \/ (exists msg, query = Raised msg)
        \/ (exists df, query = Returned df /\ rows df = []).
Proof.
  intros w keyword start_date end_date query.
  subst query.
  unfold fetch_google_trends_score.
  destruct (TrendReq w); cbn [negb].
  - destruct (interest_over_time w keyword
                (strftime_date start_date ++ " " ++ strftime_date end_date))
      as [df | msg].
    + destruct (rows df) as [|row rest] eqn:Hrows; cbn [map].
      * split; [intros _ | reflexivity].
        right; right; exists df; split; [reflexivity | exact Hrows].
      * split; [intros H; discriminate H |].
        intros [H | [[msg H] | [df' [H Hnil]]]]; try discriminate H.
        injection H as <-.
        rewrite Hrows in Hnil; discriminate Hnil.
    + split; [intros _ | reflexivity].
      right; left; exists msg; reflexivity.
  - split; [intros _; left; reflexivity | reflexivity].
Qed.

Lemma fetch_trends_some (w : trends_world) (keyword : string)
  (start_date end_date : datetime) (t : trend_result) :
  fetch_google_trends_score w keyword start_date end_date = Some t ->
  exists df x xs,
    map snd (rows df) = x :: xs
    /\ t = {| max_score := column_max x xs;
              avg_score := mean_truncated df;
              min_score := column_min x xs;
              trend_direction :=
                direction_of
                  (map (fun row => (strftime_date (fst row), snd row)) (rows df));
              total_days :=
                len (map (fun row => (strftime_date (fst row), snd row)) (rows df));
              timeframe :=
                strftime_date start_date ++ " " ++ strftime_date end_date;
              daily_data :=
                map (fun row => (strftime_date (fst row), snd row)) (rows df) |}.
Proof.
  unfold fetch_google_trends_score.
  destruct (negb (TrendReq w)); [intros H; discriminate H |].
  destruct (interest_over_time w keyword
              (strftime_date start_date ++ " " ++ strftime_date end_date))
    as [df | msg]; [| intros H; discriminate H].
  destruct (map snd (rows df)) as [|x xs] eqn:Hscores;
    [intros H; discriminate H |].
  intros H.
  injection H as <-.
  exists df, x, xs.
  split; [exact Hscores | reflexivity].
Qed.

(** X14: in a result of the trend adapter [total_days] is the number of
    daily points and is at least 1. With one point the direction is
    "unknown"; with two or more it is "increasing" when the last day's score
    is above the first day's, "decreasing" when it is below, and "stable"
    when they are equal. *)
Theorem trend_direction_classification :
  forall (w : trends_world) (keyword : string) (start_date end_date : datetime)
         (t : trend_result),
    fetch_google_trends_score w keyword start_date end_date = Some t ->
    let first_score := snd (hd ("", 0) (daily_data t)) in
    let last_score := snd (last (daily_data t) ("", 0)) in
    total_days t = len (daily_data t)
    /\ 1 <= total_days t
    /\ (total_days t = 1 -> trend_direction t = "unknown")
    /\ (2 <= total_days t ->
        (first_score < last_score -> trend_direction t = "increasing")
        /\ (last_score < first_score -> trend_direction t = "decreasing")
        /\ (last_score = first_score -> trend_direction t = "stable")).
Proof.
  intros w keyword start_date end_date t Hfetch first_score last_score.
  destruct (fetch_trends_some w keyword start_date end_date t Hfetch)
    as (df & x & xs & Hscores & Ht).
  subst first_score last_score.
  rewrite Ht.
  cbn [total_days daily_data trend_direction].
  set (daily := map (fun row => (strftime_date (fst row), snd row)) (rows df)).
  assert (Hlen : 1 <= len daily).
  { unfold daily.
    rewrite len_map, <- (len_map snd), Hscores, len_cons.
    pose proof (len_nonneg xs); lia. }
  split; [reflexivity |].
  split; [exact Hlen |].
  unfold direction_of.
  split.
  - intros H1.
    destruct (2 <=? len daily) eqn:E; [apply Z.leb_le in E; lia | reflexivity].
  - intros H2.
    destruct (2 <=? len daily) eqn:E; [| apply Z.leb_gt in E; lia].
    cbv zeta.
    split; [| split]; intros H.
    + destruct (snd (last daily ("", 0)) =? snd (hd ("", 0) daily)) eqn:Eeq;
        [apply Z.eqb_eq in Eeq; lia |].
      destruct (snd (hd ("", 0) daily) <? snd (last daily ("", 0))) eqn:Elt;
        [reflexivity | apply Z.ltb_ge in Elt; lia].
    + destruct (snd (last daily ("", 0)) =? snd (hd ("", 0) daily)) eqn:Eeq;
        [apply Z.eqb_eq in Eeq; lia |].
      destruct (snd (hd ("", 0) daily) <? snd (last daily ("", 0))) eqn:Elt;
        [apply Z.ltb_lt in Elt; lia | reflexivity].
    + rewrite H, Z.eqb_refl; reflexivity.
Qed.

Lemma trend_direction_classification_witness :
  let t :=
    {| max_score := 75; avg_score := 58; min_score := 40;
       trend_direction := "increasing"; total_days := 3;
       timeframe := "2024-05-01 2024-05-03";
       daily_data := [("2024-05-01", 40); ("2024-05-02", 75); ("2024-05-03", 60)] |} in
  fetch_google_trends_score (sample_trends_world (Returned sample_frame))
    "taylor swift" (mk_datetime 2024 5 1 0 0 0) (mk_datetime 2024 5 3 0 0 0)
  = Some t
  /\ total_days t = len (daily_data t)
  /\ 1 <= total_days t
  /\ (total_days t = 1 -> trend_direction t = "unknown")
  /\ (2 <= total_days t ->
      (snd (hd ("", 0) (daily_data t)) < snd (last (daily_data t) ("", 0)) ->
       trend_direction t = "increasing")
      /\ (snd (last (daily_data t) ("", 0)) < snd (hd ("", 0) (daily_data t)) ->
          trend_direction t = "decreasing")
      /\ (snd (last (daily_data t) ("", 0)) = snd (hd ("", 0) (daily_data t)) ->
          trend_direction t = "stable")).
Proof.
  split; [reflexivity |].
  apply (trend_direction_classification
           (sample_trends_world (Returned sample_frame)) "taylor swift"
           (mk_datetime 2024 5 1 0 0 0) (mk_datetime 2024 5 3 0 0 0)).
  reflexivity.
Defined.

Lemma column_max_spec (xs : list Z) :
  forall x,
    x <= column_max x xs
    /\ Forall (fun v => v <= column_max x xs) xs
    /\ In (column_max x xs) (x :: xs).
Proof.
  unfold column_max.
  induction xs as [|y rest IH]; intros x; cbn [fold_left].
  - split; [lia |].
    split; [apply Forall_nil | left; reflexivity].
  - destruct (IH (Z.max x y)) as (Hge & Hall & Hin).
    split; [lia |].
    split.
    + apply Forall_cons; [lia | exact Hall].
    + destruct Hin as [Hin | Hin].
      * destruct (Z.max_spec x y) as [[_ E] | [_ E]].
        -- right; left.
           transitivity (Z.max x y); [symmetry; exact E | exact Hin].
        -- left.
           transitivity (Z.max x y); [symmetry; exact E | exact Hin].
      * right; right; exact Hin.
Qed.

Lemma column_min_spec (xs : list Z) :
  forall x,
    column_min x xs <= x
    /\ Forall (fun v => column_min x xs <= v) xs
    /\ In (column_min x xs) (x :: xs).
Proof.
  unfold column_min.
  induction xs as [|y rest IH]; intros x; cbn [fold_left].
  - split; [lia |].
    split; [apply Forall_nil | left; reflexivity].
  - destruct (IH (Z.min x y)) as (Hle & Hall & Hin).
    split; [lia |].
    split.
    + apply Forall_cons; [lia | exact Hall].
    + destruct Hin as [Hin | Hin].
      * destruct (Z.min_spec x y) as [[_ E] | [_ E]].
        -- left.
           transitivity (Z.min x y); [symmetry; exact E | exact Hin].
        -- right; left.
           transitivity (Z.min x y); [symmetry; exact E | exact Hin].
      * right; right; exact Hin.
Qed.

(** X15: in a result of the trend adapter [max_score] and [min_score] are
    scores of the daily data, and every daily score lies between them. *)
Theorem trend_scores_bound_daily_data :
  forall (w : trends_world) (keyword : string) (start_date end_date : datetime)
         (t : trend_result),
    fetch_google_trends_score w keyword start_date end_date = Some t ->
    Forall (fun v => min_score t <= v <= max_score t) (map snd (daily_data t))
    /\ In (max_score t) (map snd (daily_data t))
    /\ In (min_score t) (map snd (daily_data t))
    /\ min_score t <= max_score t.
Proof.
  intros w keyword start_date end_date t Hfetch.
  destruct (fetch_trends_some w keyword start_date end_date t Hfetch)
    as (df & x & xs & Hscores & Ht).
  rewrite Ht.
  cbn [daily_data max_score min_score].
  rewrite map_map.
  cbn [snd].
  change (map (fun x0 : datetime * Z => snd x0) (rows df)) with (map snd (rows df)).
  rewrite Hscores.
  destruct (column_max_spec xs x) as (Hmax & Hmaxall & Hmaxin).
  destruct (column_min_spec xs x) as (Hmin & Hminall & Hminin).
  split.
  - apply Forall_cons; [lia |].
    rewrite Forall_forall in *.
    intros v Hv.
    specialize (Hmaxall v Hv).
    specialize (Hminall v Hv).
    cbv beta in *.
    lia.
  - split; [exact Hmaxin |].
    split; [exact Hminin | lia].
Qed.

Lemma trend_scores_bound_daily_data_witness :
  let t :=
    {| max_score := 75; avg_score := 58; min_score := 40;
       trend_direction := "increasing"; total_days := 3;
       timeframe := "2024-05-01 2024-05-03";
       daily_data := [("2024-05-01", 40); ("2024-05-02", 75); ("2024-05-03", 60)] |} in
  fetch_google_trends_score (sample_trends_world (Returned sample_frame))
    "taylor swift" (mk_datetime 2024 5 1 0 0 0) (mk_datetime 2024 5 3 0 0 0)
  = Some t
  /\ Forall (fun v => min_score t <= v <= max_score t) (map snd (daily_data t))
  /\ In (max_score t) (map snd (daily_data t))
  /\ In (min_score t) (map snd (daily_data t))
  /\ min_score t <= max_score t.
Proof.
  split; [reflexivity |].
  apply (trend_scores_bound_daily_data
           (sample_trends_world (Returned sample_frame)) "taylor swift"
           (mk_datetime 2024 5 1 0 0 0) (mk_datetime 2024 5 3 0 0 0)).
  reflexivity.
Defined.

(** ** The report *)

Lemma fetch_reddit_in_date_range (w : reddit_world) (keyword : string)
  (start_ts end_ts : Z) :
  rd_in_date_range (fetch_reddit_mentions w keyword start_ts end_ts)
  = Some (rd_count (fetch_reddit_mentions w keyword start_ts end_ts)).
Proof.
  unfold fetch_reddit_mentions.
  destruct (env_truthy (REDDIT_CLIENT_ID w)
            && env_truthy (REDDIT_CLIENT_SECRET w) && praw w)%bool;
    [| reflexivity].
  destruct (search w uk_subreddits keyword) as [submissions | msg];
    [| reflexivity].
  destruct (process_submissions w keyword start_ts end_ts submissions)
    as [result |] eqn:Hp; [| reflexivity].
  destruct (process_submissions_Some w keyword start_ts end_ts submissions result Hp)
    as (_ & _ & _ & _ & _ & _ & _ & Hin).
  exact Hin.
Qed.

Lemma detailed_of_build_report (keyword : string) (start end_ : datetime) (c : calls) :
  let r := build_report keyword start end_ c in
  dd_eventbrite (rep_detailed_data r) = snd (eventbrite_block (eventbrite_call c))
  /\ dd_reddit (rep_detailed_data r) = snd (reddit_block (reddit_call c))
  /\ rep_date r = strftime_date start
  /\ date_range (rep_search_metadata r)
     = strftime_date start ++ " to " ++ strftime_date end_.
Proof.
  unfold build_report.
  destruct (eventbrite_block (eventbrite_call c)) as [eb_count eb_data].
  destruct (reddit_block (reddit_call c)) as [reddit_count reddit_data].
  cbn.
  split; [reflexivity |].
  split; [reflexivity |].
  split; reflexivity.
Qed.

(** X16: in a run where the three adapters return, the summary carries the
    count of the event-listing result, the count of the discussion result and
    the [max_score] of the trend result; the detailed data are the adapters'
    own results; and eventbrite and reddit are always listed as successful,
    google_trends exactly when the trend adapter did not return [None]. *)
Theorem report_of_adapters :
  forall (get : http) (w : reddit_world) (tw : trends_world)
         (timestamp : datetime -> Z) (keyword : string) (start end_ : datetime)
         (token : option string),
    let eb := fetch_eventbrite_count get keyword (Some start) (Some end_) token in
    let rd := fetch_reddit_mentions w keyword (timestamp start) (timestamp end_) in
    let gt := fetch_google_trends_score tw keyword start end_ in
    let r :=
      build_report keyword start end_
        (all_adapter_calls get w tw timestamp keyword start end_ token) in
    rep_summary r
    = {| eventbrite_events := Some (eb_count eb);
         reddit_mentions := Some (rd_count rd);
         google_trends_score := option_map max_score gt |}
    /\ rep_detailed_data r
       = {| dd_eventbrite := eb;
            dd_reddit := IsDict rd;
            dd_google_trends := option_map TrendFull gt |}
    /\ sources_successful (rep_search_metadata r)
       = "eventbrite" :: "reddit"
         :: (if is_not_None gt then ["google_trends"] else []).
Proof.
  intros get w tw timestamp keyword start end_ token eb rd gt r.
  subst r.
  unfold build_report, all_adapter_calls, adapter_calls.
  cbn [eventbrite_call reddit_call trends_call eventbrite_block reddit_block].
  fold eb rd gt.
  assert (Hin : rd_in_date_range rd = Some (rd_count rd))
    by apply fetch_reddit_in_date_range.
  rewrite Hin.
  destruct gt as [t |]; cbn.
  - split; [reflexivity |].
    split; reflexivity.
  - split; [reflexivity |].
    split; reflexivity.
Qed.

(** X17: whatever the three fetches did, the summary's [reddit_mentions] is
    never [None] and reddit is listed in [sources_successful]. *)
Theorem reddit_always_listed :
  forall (keyword : string) (start end_ : datetime) (c : calls),
    let r := build_report keyword start end_ c in
    (exists n, reddit_mentions (rep_summary r) = Some n)
    /\ In "reddit" (sources_successful (rep_search_metadata r)).
Proof.
  intros keyword start end_ c r.
  pose proof (sources_successful_build_report keyword start end_ c) as Hl.
  destruct (summary_of_build_report keyword start end_ c) as (_ & Hrd & _ & _).
  cbv zeta in Hl.
  fold r in Hl, Hrd.
  assert (Hsome : exists n, reddit_mentions (rep_summary r) = Some n).
  { rewrite Hrd.
    unfold reddit_block.
    destruct (reddit_call c) as [[d | n] | e].
    - destruct (rd_in_date_range d); eexists; reflexivity.
    - eexists; reflexivity.
    - eexists; reflexivity. }
  split; [exact Hsome |].
  destruct Hsome as [n Hn].
  rewrite Hl, Hn.
  apply in_flagged_sources.
  right; left.
  split; reflexivity.
Qed.

(** X18: the summary agrees with the detailed data. [eventbrite_events] is
    [None] exactly when the event-listing fetch raised, and the detailed
    record then has count 0, no events and the exception text as [error];
    otherwise it is the count of the detailed record. [reddit_mentions] is
    the count of the detailed record, or the bare number a fetch returned. *)
Theorem summary_agrees_with_detailed_data :
  forall (keyword : string) (start end_ : datetime) (c : calls),
    let r := build_report keyword start end_ c in
    let eb_data := dd_eventbrite (rep_detailed_data r) in
    (eventbrite_events (rep_summary r) = None
     <-> exists e, eventbrite_call c = Raised e)
    /\ (forall e, eventbrite_call c = Raised e ->
          eb_count eb_data = 0 /\ eb_events eb_data = []
          /\ eb_error eb_data = Some e)
    /\ (forall n, eventbrite_events (rep_summary r) = Some n ->
          eb_count eb_data = n)
    /\ (forall d, dd_reddit (rep_detailed_data r) = IsDict d ->
          reddit_mentions (rep_summary r) = Some (rd_count d))
    /\ (forall n, dd_reddit (rep_detailed_data r) = IsInt n ->
          reddit_mentions (rep_summary r) = Some n).
Proof.
  intros keyword start end_ c r eb_data.
  destruct (summary_of_build_report keyword start end_ c) as (Heb & Hrd & _ & _).
  destruct (detailed_of_build_report keyword start end_ c) as (Hdeb & Hdrd & _ & _).
  fold r in Heb, Hrd, Hdeb, Hdrd.
  subst eb_data.
  rewrite Heb, Hrd, Hdeb, Hdrd.
  unfold eventbrite_block, reddit_block.
  split.
  { destruct (eventbrite_call c) as [[d | n] | e]; cbn [fst].
    - split; [intros H; discriminate H | intros [e' H]; discriminate H].
    - split; [intros H; discriminate H | intros [e' H]; discriminate H].
    - split; [intros _; exists e; reflexivity | intros _; reflexivity]. }
  split.
  { intros e He; rewrite He; cbn.
    split; [reflexivity | split; reflexivity]. }
  split.
  { intros n.
    destruct (eventbrite_call c) as [[d | m] | e]; cbn; intros H;
      first [discriminate H | injection H as <-; reflexivity]. }
  split.
  { intros d.
    destruct (reddit_call c) as [[d' | m] | e]; cbn [fst snd].
    - destruct (rd_in_date_range d'); cbn [fst snd]; intros H;
        injection H as <-; reflexivity.
    - intros H; discriminate H.
    - intros H; injection H as <-; reflexivity. }
  intros n.
  destruct (reddit_call c) as [[d' | m] | e]; cbn [fst snd].
  - destruct (rd_in_date_range d'); cbn [fst snd]; intros H; discriminate H.
  - intros H; injection H as <-; reflexivity.
  - intros H; discriminate H.
Qed.

(** ** The date argument *)

Lemma string_app_assoc (a b c : string) : (a ++ b) ++ c = a ++ (b ++ c).
Proof.
  induction a as [|x a IH]; simpl; [reflexivity | rewrite IH; reflexivity].
Qed.

Lemma contains_comma_cons (c : ascii) (t : string) :
  PyStr.contains "," (String c t)
  = (Ascii.eqb c "," || PyStr.contains "," t)%bool.
Proof.
  cbn [PyStr.contains prefix].
  destruct (ascii_dec "," c) as [<- | Hne].
  - destruct t; reflexivity.
  - destruct (Ascii.eqb_spec c ",") as [-> | _]; [contradiction Hne |]; reflexivity.
Qed.

Lemma contains_comma_app (a t : string) :
  PyStr.contains "," (a ++ String "," t) = true.
Proof.
  induction a as [|c a IH]; cbn [append]; rewrite contains_comma_cons.
  - reflexivity.
  - rewrite IH; apply orb_true_r.
Qed.

(** A string with a comma, cut at its first comma. *)
Lemma contains_comma_split (s : string) :
  PyStr.contains "," s = true ->
  exists a t, PyStr.contains "," a = false /\ s = a ++ String "," t.
Proof.
  induction s as [|c s IH]; intros H.
  - discriminate H.
  - rewrite contains_comma_cons in H.
    destruct (Ascii.eqb_spec c ",") as [-> | Hne].
    + exists "", s; split; reflexivity.
    + destruct (IH H) as (a & t & Ha & ->).
      exists (String c a), t.
      split; [| reflexivity].
      rewrite contains_comma_cons, Ha.
      destruct (Ascii.eqb_spec c ","); [contradiction | reflexivity].
Qed.

Lemma split_on_comma_app (a : string) :
  forall cur t,
    PyStr.contains "," a = false ->
    PyStr.split_on_from "," cur (a ++ String "," t)
    = (cur ++ a) :: PyStr.split_on_from "," "" t.
Proof.
  induction a as [|c a IH]; intros cur t H; cbn [append PyStr.split_on_from].
  - cbn.
    replace (cur ++ "") with cur; [reflexivity |].
    induction cur as [|x cur IHc]; simpl; [reflexivity | rewrite <- IHc; reflexivity].
  - rewrite contains_comma_cons in H.
    apply orb_false_iff in H.
    destruct H as [Hc Ha].
    rewrite Hc, (IH _ _ Ha), string_app_assoc.
    reflexivity.
Qed.

Lemma split_on_comma_plain (b : string) :
  forall cur,
    PyStr.contains "," b = false ->
    PyStr.split_on_from "," cur b = [cur ++ b].
Proof.
  induction b as [|c b IH]; intros cur H; cbn [PyStr.split_on_from].
  - f_equal.
    induction cur as [|x cur IHc]; simpl; [reflexivity | rewrite <- IHc; reflexivity].
  - rewrite contains_comma_cons in H.
    apply orb_false_iff in H.
    destruct H as [Hc Hb].
    rewrite Hc, (IH _ Hb), string_app_assoc.
    reflexivity.
Qed.

(** X19: in a date argument with commas only the first two fields are read:
    they are parsed as start and end, in the order given and without
    comparing them, and anything after a second comma is ignored. *)
Theorem date_range_reads_two_fields :
  forall a b rest : string,
    PyStr.contains "," a = false ->
    PyStr.contains "," b = false ->
    parse_date_input (a ++ "," ++ b)
    = match fromisoformat a, fromisoformat b with
      | Some start, Some end_ => Some (start, end_)
      | _, _ => None
      end
    /\ parse_date_input (a ++ "," ++ b ++ "," ++ rest)
       = parse_date_input (a ++ "," ++ b).
Proof.
  intros a b rest Ha Hb.
  change (a ++ "," ++ b ++ "," ++ rest) with (a ++ String "," (b ++ String "," rest)).
  change (a ++ "," ++ b) with (a ++ String "," b).
  unfold parse_date_input, PyStr.split_on.
  rewrite !contains_comma_app.
  rewrite !(split_on_comma_app a "" _ Ha).
  rewrite (split_on_comma_app b "" rest Hb), (split_on_comma_plain b "" Hb).
  cbn [nth append].
  split; [| reflexivity].
  destruct (fromisoformat a) as [start |]; [| reflexivity].
  destruct (fromisoformat b) as [end_ |]; reflexivity.
Qed.

Lemma date_range_reads_two_fields_witness :
  parse_date_input ("2024-05-10" ++ "," ++ "2024-05-01")
  = match fromisoformat "2024-05-10", fromisoformat "2024-05-01" with
    | Some start, Some end_ => Some (start, end_)
    | _, _ => None
    end
  /\ parse_date_input ("2024-05-10" ++ "," ++ "2024-05-01" ++ "," ++ "2024-06-01")
     = parse_date_input ("2024-05-10" ++ "," ++ "2024-05-01").
Proof.
  apply (date_range_reads_two_fields "2024-05-10" "2024-05-01" "2024-06-01");
    reflexivity.
Defined.

Lemma digit_inv (c : ascii) (d : Z) :
  digit c = Some d -> 0 <= d <= 9 /\ digit_char d = c.
Proof.
  destruct c as [[] [] [] [] [] [] [] []]; cbv; intros H;
    first [discriminate H | injection H as <-; split; [split; discriminate | reflexivity]].
Qed.

Lemma pad2_digits (d1 d2 v : Z) :
  0 <= d1 <= 9 -> 0 <= d2 <= 9 -> v = 10 * d1 + d2 ->
  pad2 v = String (digit_char d1) (String (digit_char d2) "").
Proof.
  intros H1 H2 ->.
  unfold pad2.
  replace ((10 * d1 + d2) / 10 mod 10) with d1
    by (symmetry; Z.div_mod_to_equations; lia).
  replace ((10 * d1 + d2) mod 10) with d2
    by (symmetry; Z.div_mod_to_equations; lia).
  reflexivity.
Qed.

Lemma pad4_digits (d1 d2 d3 d4 v : Z) :
  0 <= d1 <= 9 -> 0 <= d2 <= 9 -> 0 <= d3 <= 9 -> 0 <= d4 <= 9 ->
  v = 1000 * d1 + 100 * d2 + 10 * d3 + d4 ->
  pad4 v
  = String (digit_char d1)
      (String (digit_char d2) (String (digit_char d3) (String (digit_char d4) ""))).
Proof.
  intros H1 H2 H3 H4 ->.
  unfold pad4.
  rewrite (pad2_digits d1 d2), (pad2_digits d3 d4); try assumption.
  - reflexivity.
  - Z.div_mod_to_equations; lia.
  - Z.div_mod_to_equations; lia.
Qed.

(** Reading one more digit. *)
Lemma digits_step (n : nat) (acc v : Z) (s rest : string) :
  digits (S n) acc s = Some (v, rest) ->
  exists d t,
    0 <= d <= 9
    /\ s = String (digit_char d) t
    /\ digits n (10 * acc + d) t = Some (v, rest).
Proof.
  destruct s as [|c t]; [discriminate |].
  change (digits (S n) acc (String c t))
    with (bind (digit c) (fun d => digits n (10 * acc + d) t)).
  destruct (digit c) as [d |] eqn:D; cbn [bind]; [| discriminate].
  intros H.
  apply digit_inv in D.
  destruct D as [B <-].
  exists d, t.
  split; [exact B |].
  split; [reflexivity | exact H].
Qed.

Lemma digits_done (acc v : Z) (s rest : string) :
  digits 0 acc s = Some (v, rest) -> v = acc /\ rest = s.
Proof.
  change (digits 0 acc s) with (Some (acc, s)).
  intros H.
  injection H as Hv Hs.
  split; symmetry; assumption.
Qed.

Lemma digits2_inv (s rest : string) (v : Z) :
  digits 2 0 s = Some (v, rest) -> s = pad2 v ++ rest.
Proof.
  intros H.
  apply digits_step in H.
  destruct H as (d1 & t1 & B1 & -> & H).
  apply digits_step in H.
  destruct H as (d2 & t2 & B2 & -> & H).
  apply digits_done in H.
  destruct H as [-> ->].
  rewrite (pad2_digits d1 d2); [reflexivity | assumption | assumption | lia].
Qed.

Lemma digits4_inv (s rest : string) (v : Z) :
  digits 4 0 s = Some (v, rest) -> s = pad4 v ++ rest.
Proof.
  intros H.
  apply digits_step in H.
  destruct H as (d1 & t1 & B1 & -> & H).
  apply digits_step in H.
  destruct H as (d2 & t2 & B2 & -> & H).
  apply digits_step in H.
  destruct H as (d3 & t3 & B3 & -> & H).
  apply digits_step in H.
  destruct H as (d4 & t4 & B4 & -> & H).
  apply digits_done in H.
  destruct H as [-> ->].
  rewrite (pad4_digits d1 d2 d3 d4); [reflexivity | assumption .. | lia].
Qed.

Lemma expect_inv (c : ascii) (s t : string) :
  expect c s = Some t -> s = String c t.
Proof.
  destruct s as [|c' s']; cbn [expect]; [discriminate |].
  destruct (Ascii.eqb_spec c c') as [<- | _]; [| discriminate].
  intros H; injection H as <-; reflexivity.
Qed.

(** What [parse_date] accepts is the zero-padded rendering of what it returns. *)
Lemma parse_date_inv (s rest : string) (y m d : Z) :
  parse_date s = Some (y, m, d, rest) ->
  s = pad4 y ++ String "-" (pad2 m ++ String "-" (pad2 d ++ rest)).
Proof.
  unfold parse_date.
  destruct (digits 4 0 s) as [[y' s1] |] eqn:E1; cbn [bind]; [| discriminate].
  destruct (expect "-" s1) as [s2 |] eqn:E2; cbn [bind]; [| discriminate].
  destruct (digits 2 0 s2) as [[m' s3] |] eqn:E3; cbn [bind]; [| discriminate].
  destruct (expect "-" s3) as [s4 |] eqn:E4; cbn [bind]; [| discriminate].
  destruct (digits 2 0 s4) as [[d' s5] |] eqn:E5; cbn [bind]; [| discriminate].
  destruct (guard _); cbn [bind]; [| discriminate].
  intros H.
  injection H as <- <- <- <-.
  apply digits4_inv in E1.
  apply expect_inv in E2.
  apply digits2_inv in E3.
  apply expect_inv in E4.
  apply digits2_inv in E5.
  subst s s1 s2 s3 s4.
  reflexivity.
Qed.

(** From the year 1000 on [%Y] is four digits. *)
Lemma year_digits_pad4 (y : Z) : 1000 <= y -> year_digits y = pad4 y.
Proof.
  intros Hy.
  unfold year_digits.
  destruct (y <? 10) eqn:E1; [apply Z.ltb_lt in E1; lia |].
  destruct (y <? 100) eqn:E2; [apply Z.ltb_lt in E2; lia |].
  destruct (y <? 1000) eqn:E3; [apply Z.ltb_lt in E3; lia |].
  reflexivity.
Qed.

Lemma strftime_date_length (dt : datetime) :
  1000 <= year dt -> String.length (strftime_date dt) = 10%nat.
Proof.
  intros Hy.
  unfold strftime_date.
  rewrite (year_digits_pad4 (year dt) Hy).
  reflexivity.
Qed.

Lemma fromisoformat_prefix (s : string) (dt : datetime) :
  fromisoformat s = Some dt ->
  1000 <= year dt ->
  exists rest, s = strftime_date dt ++ rest.
Proof.
  unfold fromisoformat.
  destruct (parse_date s) as [[[[y m] d] rest] |] eqn:E; cbn [bind]; [| discriminate].
  apply parse_date_inv in E.
  intros H Hy.
  assert (Hdate : year dt = y
                  /\ strftime_date dt
                     = year_digits y ++ "-" ++ pad2 m ++ "-" ++ pad2 d).
  { destruct rest as [|sep t].
    - injection H as <-; split; reflexivity.
    - destruct (parse_time t) as [[[h mi] se] |]; cbn [bind] in H; [| discriminate H].
      injection H as <-; split; reflexivity. }
  destruct Hdate as [Hyear Hdate].
  rewrite Hyear in Hy.
  exists rest.
  rewrite Hdate, E, (year_digits_pad4 y Hy).
  rewrite !string_app_assoc.
  reflexivity.
Qed.

(** X20: for a date argument that [main] parses to a start date in the year
    1000 or later, the report's [date] is the first ten characters of the
    argument, as typed: parsing the start date and formatting it again gives
    it back. *)
Theorem report_date_is_input_prefix :
  forall (keyword date : string) (c : calls) (start end_ : datetime) (r : report),
    parse_date_input date = Some (start, end_) ->
    1000 <= year start ->
    main keyword date c = Some r ->
    exists rest, date = rep_date r ++ rest /\ String.length (rep_date r) = 10%nat.
Proof.
  intros keyword date c start end_ r Hparse Hyear.
  unfold main.
  rewrite Hparse.
  cbn [bind].
  intros H.
  injection H as <-.
  destruct (detailed_of_build_report keyword start end_ c) as (_ & _ & Hdate & _).
  rewrite Hdate.
  pose proof (strftime_date_length start Hyear) as Hlen.
  unfold parse_date_input in Hparse.
  destruct (PyStr.contains "," date) eqn:Hcomma.
  - destruct (contains_comma_split date Hcomma) as (a & t & Ha & ->).
    unfold PyStr.split_on in Hparse.
    rewrite (split_on_comma_app a "" t Ha) in Hparse.
    cbn [nth append] in Hparse.
    destruct (fromisoformat a) as [start' |] eqn:Hstart; cbn [bind] in Hparse;
      [| discriminate Hparse].
    assert (Hsame : start' = start).
    { revert Hparse.
      match goal with
      | |- bind ?e _ = _ -> _ => destruct e as [end' |]
      end; cbn [bind]; intros Hparse; [| discriminate Hparse].
      injection Hparse as Hs _; exact Hs. }
    subst start'.
    destruct (fromisoformat_prefix a start Hstart Hyear) as [rest ->].
    exists (rest ++ String "," t).
    split; [apply string_app_assoc | exact Hlen].
  - destruct (fromisoformat date) as [start' |] eqn:Hstart; cbn [bind] in Hparse;
      [| discriminate Hparse].
    assert (Hsame : start' = start).
    { revert Hparse.
      destruct (add_one_day start') as [end' |]; cbn [bind]; intros Hparse;
        [| discriminate Hparse].
      injection Hparse as Hs _; exact Hs. }
    subst start'.
    destruct (fromisoformat_prefix date start Hstart Hyear) as [rest ->].
    exists rest.
    split; [reflexivity | exact Hlen].
Qed.

Lemma report_date_is_input_prefix_witness :
  exists rest,
    "2024-05-01,2024-05-10"
    = rep_date
        (build_report "taylor swift" (mk_datetime 2024 5 1 0 0 0)
           (mk_datetime 2024 5 10 0 0 0) sample_calls_all_failing) ++ rest
    /\ String.length
         (rep_date
            (build_report "taylor swift" (mk_datetime 2024 5 1 0 0 0)
               (mk_datetime 2024 5 10 0 0 0) sample_calls_all_failing)) = 10%nat.
Proof.
  apply (report_date_is_input_prefix "taylor swift" "2024-05-01,2024-05-10"
           sample_calls_all_failing (mk_datetime 2024 5 1 0 0 0)
           (mk_datetime 2024 5 10 0 0 0)).
  - reflexivity.
  - cbn [year]; lia.
  - reflexivity.
Defined.

(** ** The scorer and longer titles *)

Lemma prefix_app (h : string) :
  forall n u, prefix n h = true -> prefix n (h ++ u) = true.
Proof.
  induction h as [|b h IH]; intros [|a n] u H; cbn [append].
  - destruct u; reflexivity.
  - discriminate H.
  - reflexivity.
  - cbn [prefix] in *.
    destruct (ascii_dec a b); [apply IH; exact H | discriminate H].
Qed.

Lemma contains_app_r (n h u : string) :
  PyStr.contains n h = true -> PyStr.contains n (h ++ u) = true.
Proof.
  induction h as [|c h IH]; intros H.
  - destruct n as [|a n]; [apply contains_empty | discriminate H].
  - cbn [append].
    cbn [PyStr.contains] in H |- *.
    destruct (prefix n (String c h)) eqn:E.
    + change (String c (h ++ u)) with (String c h ++ u).
      rewrite (prefix_app (String c h) n u E); reflexivity.
    + rewrite (IH H).
      destruct (prefix n (String c (h ++ u))); reflexivity.
Qed.

Lemma contains_app_l (n h u : string) :
  PyStr.contains n h = true -> PyStr.contains n (u ++ h) = true.
Proof.
  intros H.
  induction u as [|c u IH]; cbn [append]; [exact H |].
  cbn [PyStr.contains].
  rewrite IH.
  destruct (prefix n (String c (u ++ h))); reflexivity.
Qed.

Lemma lower_app (a b : string) :
  PyStr.lower (a ++ b) = PyStr.lower a ++ PyStr.lower b.
Proof.
  unfold PyStr.lower.
  induction a as [|c a IH]; cbn [append PyStr.map_chars];
    [reflexivity | rewrite IH; reflexivity].
Qed.

(** What is found in a title is found in the title with text around it. *)
Lemma contains_in_longer (n before title after : string) :
  PyStr.contains n (PyStr.lower title) = true ->
  PyStr.contains n (PyStr.lower (before ++ title ++ after)) = true.
Proof.
  intros H.
  rewrite !lower_app.
  apply contains_app_l, contains_app_r, H.
Qed.

Lemma word_loop_monotone (title_lower longer : string) (words : list string) :
  (forall word, PyStr.contains word title_lower = true ->
                PyStr.contains word longer = true) ->
  fold_left (add_word_points title_lower) words 0
  <= fold_left (add_word_points longer) words 0.
Proof.
  intros Hmono.
  induction words as [|word rest IH]; cbn [fold_left].
  - lia.
  - rewrite (word_loop_shift title_lower), (word_loop_shift longer).
    unfold add_word_points at 1 3.
    destruct (PyStr.contains word title_lower) eqn:E.
    + rewrite (Hmono word E); lia.
    + destruct (PyStr.contains word longer); lia.
Qed.

Lemma existsb_monotone {A : Type} (p q : A -> bool) (l : list A) :
  (forall x, p x = true -> q x = true) ->
  existsb p l = true -> existsb q l = true.
Proof.
  intros Hpq H.
  apply existsb_exists in H.
  destruct H as (x & Hin & Hp).
  apply existsb_exists.
  exists x; split; [exact Hin | apply Hpq; exact Hp].
Qed.

(** X21: text added before or after a title never lowers its score: a
    title that passes the threshold still passes with more text around it. *)
Theorem score_monotone_in_title :
  forall before title after keyword : string,
    calculate_relevance_score title keyword
    <= calculate_relevance_score (before ++ title ++ after) keyword
    /\ (passes_threshold (calculate_relevance_score title keyword) = true ->
        passes_threshold
          (calculate_relevance_score (before ++ title ++ after) keyword) = true).
Proof.
  intros before title after keyword.
  assert (Hle : calculate_relevance_score title keyword
                <= calculate_relevance_score (before ++ title ++ after) keyword).
  { unfold calculate_relevance_score, clamp.
    rewrite !score_before_clamp_sum.
    unfold exact_match_points, word_match_points, event_bonus_points.
    pose proof (word_loop_monotone (PyStr.lower title)
                  (PyStr.lower (before ++ title ++ after))
                  (PyStr.split (PyStr.lower keyword))
                  (fun word => contains_in_longer word before title after)) as Hw.
    pose proof (contains_in_longer (PyStr.lower keyword) before title after) as He.
    pose proof (existsb_monotone
                  (fun term => PyStr.contains term (PyStr.lower title))
                  (fun term =>
                     PyStr.contains term (PyStr.lower (before ++ title ++ after)))
                  event_terms
                  (fun term => contains_in_longer term before title after)) as Hb.
    destruct (PyStr.contains (PyStr.lower keyword) (PyStr.lower title));
      [rewrite (He eq_refl) |
       destruct (PyStr.contains (PyStr.lower keyword)
                   (PyStr.lower (before ++ title ++ after)))];
      (destruct (existsb (fun term => PyStr.contains term (PyStr.lower title))
                   event_terms);
       [rewrite (Hb eq_refl) |
        destruct (existsb
                    (fun term =>
                       PyStr.contains term (PyStr.lower (before ++ title ++ after)))
                    event_terms)]);
      lia. }
  split; [exact Hle |].
  unfold passes_threshold.
  rewrite !Z.leb_le.
  lia.
Qed.
